(** * The evaluation stage of the ChestCancerClassifier pipeline

    A shallow embedding of
    [src/ChestCancerClassifier/pipeline/stage_04_model_evaluation.py]:
    [EvaluationPipeline.main] as a program in a small monad that threads the
    file system, records every call that leaves the procedure (with the source
    line it is made from) and propagates Python exceptions.

    What a run depends on is an input of the model: the contents of the
    files, the value the evaluation component returns, the clock, and the
    exit status and output of the external process. The operations the
    source applies to these raise where Python raises: [json.load] on a
    content that does not decode as text ([UnicodeDecodeError]) or on a
    malformed text ([JSONDecodeError]), [.items()] on a value that is not a
    dict, [len] on a value that has none, [bytes.decode] on bytes that are
    not UTF-8, [subprocess.run] with [check=True] on a non-zero exit status.

    The collaborators themselves (the configuration manager, DagsHub, the
    MLflow client, the logger, the operating system behind [open] and
    [subprocess.run]) are recorded as calls that return, and the file system
    of the model is the one [main] reads and writes by its own calls: a path
    that exists is a regular file that can be read. A run
    in which a collaborator raises (the tracking client rejecting a value,
    the command that cannot be started) is not a run of the model, and what
    the evaluation component or the external process do to the files is not
    part of it: the properties below speak of the calls [main] makes and of
    the files as its own calls leave them. *)

From Stdlib Require Import ZArith Ascii Floats.SpecFloat.
From stdpp Require Import gmap strings list sorting pretty.

#[local] Set Warnings "-register-all".

Module StdString := Stdlib.Strings.String.

(** ** Python values

    The values [json.load] produces, which are also the values the evaluation
    component returns. A dict carries its items in insertion order, the order
    in which [.items()] and iteration yield them; a character of a string
    stands for one code point. *)
Inductive value :=
| VNone
| VBool (b : bool)
| VInt (z : Z)
| VFloat (f : spec_float)
| VStr (s : string)
| VList (l : list value)
| VDict (d : list (string * value)).

(** [bool(v)]: what [if v] tests. *)
Definition truthy (v : value) : bool :=
  match v with
  | VNone => false
  | VBool b => b
  | VInt z => negb (z =? 0)%Z
  | VFloat (S754_zero _) => false
  | VFloat _ => true
  | VStr s => negb (StdString.eqb s "")
  | VList l => match l with [] => false | _ => true end
  | VDict d => match d with [] => false | _ => true end
  end.

(** [isinstance(v, dict)]. *)
Definition isinstance_dict (v : value) : bool :=
  match v with VDict _ => true | _ => false end.

(** [isinstance(v, (int, float))]; [bool] is a subclass of [int]. *)
Definition isinstance_int_float (v : value) : bool :=
  match v with VBool _ | VInt _ | VFloat _ => true | _ => false end.

(** [len(v)], [None] where Python raises [TypeError]. *)
Definition py_len (v : value) : option nat :=
  match v with
  | VStr s => Some (StdString.length s)
  | VList l => Some (length l)
  | VDict d => Some (length d)
  | _ => None
  end.

(** What iterating over [v] yields: the elements of a list, the keys of a
    dict, the characters of a string. *)
Definition py_iter (v : value) : list value :=
  match v with
  | VList l => l
  | VDict d => (λ kv, VStr kv.1) <$> d
  | VStr s => (λ c, VStr (String c "")) <$> StdString.list_ascii_of_string s
  | _ => []
  end.

(** [enumerate(l)]. *)
Definition enumerate {A} (l : list A) : list (nat * A) := imap (λ i x, (i, x)) l.

(** ** Text *)

(** [str.isspace] on the code points below 256. *)
Definition isspace (c : ascii) : bool :=
  let n := nat_of_ascii c in
  ((9 <=? n) && (n <=? 13)) || ((28 <=? n) && (n <=? 32)) || (n =? 133) || (n =? 160).

Fixpoint lstrip (s : string) : string :=
  match s with
  | String c s' => if isspace c then lstrip s' else s
  | EmptyString => EmptyString
  end.

(** [str.strip()]. *)
Definition strip (s : string) : string :=
  String.rev (lstrip (String.rev (lstrip s))).

(** ** [datetime.datetime.now().isoformat()] *)

Record datetime := {
  year : nat; month : nat; day : nat;
  hour : nat; minute : nat; second : nat; microsecond : nat
}.

Definition digit (n : nat) : ascii := ascii_of_nat (48 + n `mod` 10).

(** [w] decimal digits of [n], zero padded: the [%0wd] of a field within
    the range [datetime] keeps it in. *)
Fixpoint zero_padded (w n : nat) : string :=
  match w with
  | 0 => ""
  | S w' => zero_padded w' (n `div` 10) +:+ String (digit n) ""
  end.

Definition isoformat (t : datetime) : string :=
  zero_padded 4 (year t) +:+ "-" +:+ zero_padded 2 (month t) +:+ "-" +:+
  zero_padded 2 (day t) +:+ "T" +:+ zero_padded 2 (hour t) +:+ ":" +:+
  zero_padded 2 (minute t) +:+ ":" +:+ zero_padded 2 (second t) +:+
  (if microsecond t =? 0 then "" else "." +:+ zero_padded 6 (microsecond t)).

(** ** Calls that leave the procedure *)

Inductive level := DEBUG | INFO | WARNING | ERROR.

Inductive run_status := FINISHED | FAILED.

(** The argument of [mlflow.log_param]: the value itself, or [str(value)]. *)
Inductive param_value :=
| Raw (v : value)
| Str (v : value).

Inductive call :=
| logger (lvl : level)
| ConfigurationManager
| get_evaluation_config
| Evaluation
| dagshub_init (repo_owner repo_name : string)
| start_run (run_name : string)
| end_run (status : run_status)
| log_param (key : string) (v : param_value)
| log_metric (key : string) (v : value)
| evaluation
| path_exists (path : string)
| open_file (path mode : string)
| json_load (path : string)
| write (path text : string)
| subprocess_run (argv : list string).

(** A call together with the source line it is made from. *)
Definition event : Type := nat * call.

Inductive exn :=
| FileNotFoundError
| JSONDecodeError
| AttributeError
| TypeError
| UnicodeDecodeError
| CalledProcessError (returncode : Z) (output stderr : string).

Inductive result (A : Type) :=
| Returned (a : A)
| Raised (e : exn).
Arguments Returned {A} a.
Arguments Raised {A} e.

(** ** The monad: file system in, result, file system and calls out *)

Record run (A : Type) := Run {
  result_of : result A;
  fs_of : gmap string string;
  trace_of : list event
}.
Arguments Run {A} _ _ _.
Arguments result_of {A} _.
Arguments fs_of {A} _.
Arguments trace_of {A} _.

Definition M (A : Type) : Type := gmap string string → run A.

Definition ret {A} (a : A) : M A := λ fs, Run (Returned a) fs [].

Definition raise {A} (e : exn) : M A := λ fs, Run (Raised e) fs [].

Definition bind {A B} (m : M A) (k : A → M B) : M B := λ fs,
  let r := m fs in
  match result_of r with
  | Returned a =>
      let r' := k a (fs_of r) in
      Run (result_of r') (fs_of r') (trace_of r ++ trace_of r')
  | Raised e => Run (Raised e) (fs_of r) (trace_of r)
  end.

Notation "'do' x <- m ; k" := (bind m (λ x, k))
  (at level 60, m at next level, right associativity).
Notation "'do' m ; k" := (do _ <- m ; k)
  (at level 60, right associativity).

(** [try: body except ...: handler]; the handler is [None] on the exceptions
    the [except] clause does not match. *)
Definition try_except {A} (body : M A) (handler : exn → option (M A)) : M A := λ fs,
  let r := body fs in
  match result_of r with
  | Returned _ => r
  | Raised e =>
      match handler e with
      | Some h =>
          let r' := h (fs_of r) in
          Run (result_of r') (fs_of r') (trace_of r ++ trace_of r')
      | None => r
      end
  end.

Definition emit (line : nat) (c : call) : M unit := λ fs, Run (Returned ()) fs [(line, c)].

Fixpoint for_each {A} (l : list A) (body : A → M unit) : M unit :=
  match l with
  | [] => ret ()
  | x :: l' => do body x; for_each l' body
  end.

(** Leaving the block of [with mlflow.start_run(...)]: the run is ended,
    normally or by an exception, which is propagated. *)
Definition finally_end_run {A} (line : nat) (body : M A) : M A := λ fs,
  let r := body fs in
  Run (result_of r) (fs_of r)
      (trace_of r ++ [(line, end_run (match result_of r with
                                      | Returned _ => FINISHED
                                      | Raised _ => FAILED
                                      end))]).

(** [with mlflow.start_run(run_name=name): body]. *)
Definition with_start_run {A} (line : nat) (name : string) (body : M A) : M A :=
  do emit line (start_run name);
  finally_end_run line body.

(** [Path(p).exists()]. *)
Definition exists_ (line : nat) (p : string) : M bool := λ fs,
  Run (Returned (bool_decide (is_Some (fs !! p)))) fs [(line, path_exists p)].

(** [open(p, "r")], returning the content of the file. *)
Definition open_r (line : nat) (p : string) : M string := λ fs,
  match fs !! p with
  | Some txt => Run (Returned txt) fs [(line, open_file p "r")]
  | None => Run (Raised FileNotFoundError) fs [(line, open_file p "r")]
  end.

(** [with open(p, "a") as tf: tf.write(text)]: the file is created when it
    is missing, and the text goes after what it holds. *)
Definition append_to (line_open line_write : nat) (p text : string) : M unit := λ fs,
  Run (Returned ()) (<[p := default "" (fs !! p) +:+ text]> fs)
      [(line_open, open_file p "a"); (line_write, write p text)].

(** [v.items()]: only a dict has the attribute. *)
Definition items (v : value) : M (list (string * value)) :=
  match v with
  | VDict d => ret d
  | _ => raise AttributeError
  end.

(** [len(v)]. *)
Definition len (v : value) : M nat :=
  match py_len v with
  | Some n => ret n
  | None => raise TypeError
  end.

(** The process [subprocess.run] waits for. *)
Record CompletedProcess := {
  returncode : Z;
  stdout : string;
  stderr : string
}.

(** What a run of [main] finds outside the file system. *)
Record Env := {
  params_image_size : value;
  params_batch_size : value;
  evaluation_result : value;
  now : datetime;
  dvc_repro_training : CompletedProcess
}.

Definition STAGE_NAME : string := "Evaluation".
Definition scores_file : string := "scores.json".
Definition incorrect_file : string := "incorrect_predictions.json".
Definition trigger_file : string := "retrain_trigger.txt".
Definition dvc_argv : list string := ["dvc"; "repro"; "training"].

(** The line written to the trigger file (line 120). *)
Definition trigger_line (t : datetime) : string :=
  "Retraining triggered at " +:+ isoformat t +:+ String "010" "".

(** ** Observations on a trace *)

Definition is_evaluation (e : event) : bool :=
  match e.2 with evaluation => true | _ => false end.

Definition is_subprocess_run (e : event) : bool :=
  match e.2 with subprocess_run _ => true | _ => false end.

Definition is_write (e : event) : bool :=
  match e.2 with write _ _ => true | _ => false end.

Definition is_path_exists (p : string) (e : event) : bool :=
  match e.2 with path_exists q => StdString.eqb q p | _ => false end.

Definition is_json_load (p : string) (e : event) : bool :=
  match e.2 with json_load q => StdString.eqb q p | _ => false end.

(** A call that only reports: to the log or to the tracking backend. *)
Definition is_reporting (e : event) : bool :=
  match e.2 with
  | logger _ | log_param _ _ | log_metric _ _ => true
  | _ => false
  end.

(** A call that logs a value to the tracking backend from the given line. *)
Definition is_tracking_log_at (line : nat) (e : event) : bool :=
  match e.2 with
  | log_param _ _ | log_metric _ _ => e.1 =? line
  | _ => false
  end.

(** How many events of a trace satisfy [f]. *)
Definition count (f : event → bool) (t : list event) : nat :=
  length (List.filter f t).

(** The run tested whether [p] exists. *)
Definition probed (p : string) (t : list event) : bool :=
  0 <? count (is_path_exists p) t.

(** The run called [json.load] on the file [p]. *)
Definition parsed (p : string) (t : list event) : bool :=
  0 <? count (is_json_load p) t.

(** A file was written to. *)
Definition appended (t : list event) : bool := 0 <? count is_write t.

(** An external command was invoked. *)
Definition invoked (t : list event) : bool := 0 <? count is_subprocess_run t.

Module EvaluationPipeline.
Section Main.

(** [json.load] on a file of the given content, opened in text mode: the
    value it returns, [None] where the content is not a JSON document (it
    does not decode as text, or the text is malformed) and it raises. *)
Variable json_loads : string → option value.
(** The decoding that reading a file in text mode applies to its content
    (the encoding of the locale), [None] for [UnicodeDecodeError]. *)
Variable text_decode : string → option string.
(** [bytes.decode()], [None] for [UnicodeDecodeError]. *)
Variable bytes_decode : string → option string.

Variable env : Env.

(** [json.load(f)]: it reads the file, which decodes the content, and then
    parses the text. Where it raises, the exception is the
    [UnicodeDecodeError] of the read when the content does not decode, and
    the [JSONDecodeError] of the parser otherwise. *)
Definition json_load_file (line : nat) (p content : string) : M value :=
  do emit line (json_load p);
  match json_loads content with
  | Some v => ret v
  | None =>
      match text_decode content with
      | None => raise UnicodeDecodeError
      | Some _ => raise JSONDecodeError
      end
  end.

Definition decode (b : string) : M string :=
  match bytes_decode b with
  | Some s => ret s
  | None => raise UnicodeDecodeError
  end.

(** [subprocess.run(argv, check=True, stdout=PIPE, stderr=PIPE, cwd=...)],
    for the process the environment says was run. *)
Definition run_checked (line : nat) (argv : list string) : M CompletedProcess :=
  do emit line (subprocess_run argv);
  let p := dvc_repro_training env in
  if (returncode p =? 0)%Z then ret p
  else raise (CalledProcessError (returncode p) (stdout p) (stderr p)).

(** Lines 69-80. *)
Definition log_results (results : value) : M unit :=
  do emit 69 (logger INFO);
  if truthy results && isinstance_dict results then
    do d <- items results;
    for_each d (λ '(metric_name, metric_value),
      if isinstance_int_float metric_value then
        do emit 74 (log_metric metric_name metric_value);
        emit 75 (logger INFO)
      else
        do emit 77 (log_param metric_name (Str metric_value));
        emit 78 (logger INFO))
  else
    emit 80 (logger WARNING).

(** Lines 82-95. *)
Definition log_scores : M unit :=
  do emit 82 (logger INFO);
  do found <- exists_ 85 scores_file;
  if found then
    try_except
      (do txt <- open_r 87 scores_file;
       do scores <- json_load_file 88 scores_file txt;
       do d <- items scores;
       for_each d (λ '(metric, v),
         do emit 90 (log_metric metric v);
         emit 91 (logger INFO)))
      (λ e, match e with
            | JSONDecodeError => Some (emit 93 (logger ERROR))
            | _ => None
            end)
  else
    emit 95 (logger WARNING).

(** Lines 116-144. *)
Definition trigger_retraining : M unit :=
  try_except
    (do append_to 119 120 trigger_file (trigger_line (now env));
     do emit 121 (logger INFO);
     do result <- run_checked 125 dvc_argv;
     do out <- decode (stdout result);
     do err <- decode (stderr result);
     let stdout_decoded := strip out in
     let stderr_decoded := strip err in
     do (if negb (StdString.eqb stdout_decoded "") then emit 137 (logger INFO) else ret ());
     do (if negb (StdString.eqb stderr_decoded "") then emit 139 (logger WARNING) else ret ());
     emit 141 (logger INFO))
    (λ e, match e with
          | CalledProcessError _ _ err =>
              Some (do _ <- decode err;
                    do emit 143 (logger ERROR);
                    raise e)
          | _ => None
          end).

(** Lines 97-148. *)
Definition log_incorrect_predictions : M unit :=
  do emit 97 (logger INFO);
  do found <- exists_ 100 incorrect_file;
  if found then
    try_except
      (do txt <- open_r 102 incorrect_file;
       do incorrect_data <- json_load_file 103 incorrect_file txt;
       do num_incorrect <- len incorrect_data;
       do emit 105 (log_metric "num_incorrect_predictions" (VInt (Z.of_nat num_incorrect)));
       do emit 106 (logger INFO);
       do for_each (enumerate (py_iter incorrect_data)) (λ '(idx, pred),
            do emit 110 (log_param ("incorrect_prediction_" +:+ pretty idx) (Raw pred));
            emit 111 (logger DEBUG));
       if 5 <? num_incorrect then
         do emit 115 (logger INFO);
         trigger_retraining
       else ret ())
      (λ e, match e with
            | JSONDecodeError => Some (emit 146 (logger ERROR))
            | _ => None
            end)
  else
    emit 148 (logger WARNING).

(** Lines 39-150. *)
Definition main : M unit :=
  do emit 40 (logger INFO);
  do emit 42 ConfigurationManager;
  do emit 43 get_evaluation_config;
  do emit 46 Evaluation;
  do emit 49 (dagshub_init "Annmary777" "Chest-Cancer-Detection-using-MLOps1");
  do emit 55 (logger INFO);
  do with_start_run 57 STAGE_NAME
    (do emit 58 (logger INFO);
     do emit 60 (log_param "image_size" (Raw (params_image_size env)));
     do emit 61 (log_param "batch_size" (Raw (params_batch_size env)));
     do emit 63 (logger INFO);
     do emit 65 evaluation;
     let results := evaluation_result env in
     do emit 67 (logger INFO);
     do log_results results;
     do log_scores;
     log_incorrect_predictions);
  emit 150 (logger INFO).

(** Lines 152-160, the script: [EvaluationPipeline()] runs [__init__], which
    does nothing, and [except Exception] matches every exception. *)
Definition stage_script : M unit :=
  try_except
    (do emit 154 (logger INFO);
     do main;
     emit 157 (logger INFO))
    (λ e, Some (do emit 159 (logger ERROR);
                raise e)).

End Main.
End EvaluationPipeline.

(** ** The steps of [main]

    The step an event belongs to, by the line the call is made from; ending
    the tracked run, which happens on leaving the [with] block, belongs to
    the completion of the procedure. *)
Inductive step :=
| ConfigurationRetrieval   (* lines 40-46 *)
| TrackingSetup            (* lines 49-61 *)
| EvaluationInvocation     (* lines 63-67 *)
| ResultsLogging           (* lines 69-80 *)
| ScoresBranch             (* lines 82-95 *)
| IncorrectBranch          (* lines 97-115 and 145-148 *)
| MarkerAppend             (* lines 116-121 *)
| ExternalProcess          (* lines 123-131 *)
| ProcessReport            (* lines 133-144 *)
| Completion.              (* line 150 and the end of the tracked run *)

Definition step_index (s : step) : nat :=
  match s with
  | ConfigurationRetrieval => 0
  | TrackingSetup => 1
  | EvaluationInvocation => 2
  | ResultsLogging => 3
  | ScoresBranch => 4
  | IncorrectBranch => 5
  | MarkerAppend => 6
  | ExternalProcess => 7
  | ProcessReport => 8
  | Completion => 9
  end.

Definition step_of_line (l : nat) : step :=
  if l <=? 46 then ConfigurationRetrieval
  else if l <=? 61 then TrackingSetup
  else if l <=? 67 then EvaluationInvocation
  else if l <=? 80 then ResultsLogging
  else if l <=? 95 then ScoresBranch
  else if l <=? 115 then IncorrectBranch
  else if l <=? 121 then MarkerAppend
  else if l <=? 131 then ExternalProcess
  else if l <=? 144 then ProcessReport
  else if l <=? 148 then IncorrectBranch
  else Completion.

Definition step_of (e : event) : step :=
  match e.2 with
  | end_run _ => Completion
  | _ => step_of_line e.1
  end.

Definition phase (e : event) : nat := step_index (step_of e).

(** Every event of the trace is in a phase at least as late as those of
    the events before it. *)
Definition in_step_order (t : list event) : Prop :=
  StronglySorted (λ e1 e2, phase e1 ≤ phase e2) t.

(** ** Expected traces of the loops *)

(** Lines 72-78, for the items of the evaluation results. *)
Definition results_events (d : list (string * value)) : list event :=
  d ≫= λ '(metric_name, metric_value),
    if isinstance_int_float metric_value
    then [(74, log_metric metric_name metric_value); (75, logger INFO)]
    else [(77, log_param metric_name (Str metric_value)); (78, logger INFO)].

(** Lines 89-91, for the items of [scores.json]. *)
Definition scores_events (d : list (string * value)) : list event :=
  d ≫= λ '(metric, v), [(90, log_metric metric v); (91, logger INFO)].

(** Lines 109-111, for the entries of [incorrect_predictions.json]. *)
Definition prediction_events (l : list value) : list event :=
  enumerate l ≫= λ '(idx, pred),
    [(110, log_param ("incorrect_prediction_" +:+ pretty idx) (Raw pred));
     (111, logger DEBUG)].

(** The calls of lines 40-67, up to and including the evaluation. *)
Definition main_prefix (env : Env) : list event :=
  [(40, logger INFO); (42, ConfigurationManager); (43, get_evaluation_config);
   (46, Evaluation);
   (49, dagshub_init "Annmary777" "Chest-Cancer-Detection-using-MLOps1");
   (55, logger INFO); (57, start_run STAGE_NAME); (58, logger INFO);
   (60, log_param "image_size" (Raw (params_image_size env)));
   (61, log_param "batch_size" (Raw (params_batch_size env)));
   (63, logger INFO); (65, evaluation); (67, logger INFO)].

(** How many newline characters a text holds. *)
Fixpoint newlines (s : string) : nat :=
  match s with
  | EmptyString => 0
  | String c s' => (if Ascii.eqb c "010" then 1 else 0) + newlines s'
  end.

(** What is reported after the external process ended (lines 133-144), and
    how the retraining step ends. *)
Definition retraining_report (bytes_decode : string → option string)
    (p : CompletedProcess) : result unit * list event :=
  if (returncode p =? 0)%Z then
    match bytes_decode (stdout p), bytes_decode (stderr p) with
    | Some out, Some err =>
        (Returned (),
         (if negb (StdString.eqb (strip out) "") then [(137, logger INFO)] else []) ++
         (if negb (StdString.eqb (strip err) "") then [(139, logger WARNING)] else []) ++
         [(141, logger INFO)])
    | _, _ => (Raised UnicodeDecodeError, [])
    end
  else
    match bytes_decode (stderr p) with
    | Some _ =>
        (Raised (CalledProcessError (returncode p) (stdout p) (stderr p)),
         [(143, logger ERROR)])
    | None => (Raised UnicodeDecodeError, [])
    end.

(** The calls of lines 116-131: the append to the marker file, then the
    external process. *)
Definition retraining_events (t : datetime) : list event :=
  [(119, open_file trigger_file "a"); (120, write trigger_file (trigger_line t));
   (121, logger INFO); (125, subprocess_run dvc_argv)].

(** The file system after the append of line 120. *)
Definition with_trigger_line (t : datetime) (fs : gmap string string) : gmap string string :=
  <[trigger_file := default "" (fs !! trigger_file) +:+ trigger_line t]> fs.

(** The calls that open the incorrect-predictions step and parse the file
    (lines 97-103). *)
Definition incorrect_opening : list event :=
  [(97, logger INFO); (100, path_exists incorrect_file);
   (102, open_file incorrect_file "r"); (103, json_load incorrect_file)].

(** The calls that log the parsed collection (lines 105-111). *)
Definition incorrect_logging (data : value) (n : nat) : list event :=
  [(105, log_metric "num_incorrect_predictions" (VInt (Z.of_nat n)));
   (106, logger INFO)] ++ prediction_events (py_iter data).

(** ** Generic facts about the monad *)

Section Monad.
Context {A : Type}.

(** A loop whose body only makes calls makes the calls of each element in
    turn, and returns. *)
Lemma for_each_emits (f : A → list event) (body : A → M unit) (l : list A) fs :
  (∀ x fs', body x fs' = Run (Returned ()) fs' (f x)) →
  for_each l body fs = Run (Returned ()) fs (l ≫= f).
Proof.
  intros Hbody. induction l as [|x l IH]; [done|].
  simpl. unfold bind. rewrite Hbody. simpl. by rewrite IH.
Qed.
End Monad.

(** The run [r], after the calls [t] were made. *)
Definition prepend {A} (t : list event) (r : run A) : run A :=
  Run (result_of r) (fs_of r) (t ++ trace_of r).

Section Stepping.
Context {A B : Type}.

Lemma bind_step (m : M A) (k : A → M B) fs a fs1 t1 :
  m fs = Run (Returned a) fs1 t1 → bind m k fs = prepend t1 (k a fs1).
Proof. intros H. unfold bind. by rewrite H. Qed.

Lemma bind_stop (m : M A) (k : A → M B) fs e fs1 t1 :
  m fs = Run (Raised e) fs1 t1 → bind m k fs = Run (Raised e) fs1 t1.
Proof. intros H. unfold bind. by rewrite H. Qed.

Lemma try_returned (body : M A) handler fs a fs1 t1 :
  body fs = Run (Returned a) fs1 t1 →
  try_except body handler fs = Run (Returned a) fs1 t1.
Proof. intros H. unfold try_except. by rewrite H. Qed.

Lemma try_raised (body : M A) handler fs e fs1 t1 :
  body fs = Run (Raised e) fs1 t1 →
  try_except body handler fs =
  match handler e with
  | Some h => prepend t1 (h fs1)
  | None => Run (Raised e) fs1 t1
  end.
Proof. intros H. unfold try_except. rewrite H. simpl. by destruct (handler e). Qed.

Lemma run_eq (r : run A) res fs :
  result_of r = res → fs_of r = fs → r = Run res fs (trace_of r).
Proof. destruct r. simpl. by intros -> ->. Qed.

End Stepping.

Ltac norm_run := unfold prepend; cbn [result_of fs_of trace_of].

(** [keeps_files m]: [m] leaves the file system as it found it. *)
Definition keeps_files {A} (m : M A) : Prop :=
  ∀ fs, fs_of (m fs) = fs.

(** The threshold condition of line 114 on a file system: the file of
    incorrect predictions exists, parses, and holds more than 5 entries. *)
Definition exceeds_threshold (json_loads : string → option value)
    (fs : gmap string string) : bool :=
  match fs !! incorrect_file with
  | Some txt =>
      match json_loads txt with
      | Some data =>
          match py_len data with
          | Some n => 5 <? n
          | None => false
          end
      | None => false
      end
  | None => false
  end.

(** [scores.json] exists and parses, but not to a dict: the value has no
    [items] attribute (line 89). *)
Definition scores_not_a_dict (json_loads : string → option value)
    (fs : gmap string string) : bool :=
  match fs !! scores_file with
  | Some txt =>
      match json_loads txt with
      | Some (VDict _) | None => false
      | Some _ => true
      end
  | None => false
  end.

(** [p] exists and [json.load] raises on it because its content does not
    decode as text. *)
Definition undecodable (json_loads : string → option value)
    (text_decode : string → option string) (p : string)
    (fs : gmap string string) : bool :=
  match fs !! p with
  | Some content =>
      match json_loads content, text_decode content with
      | None, None => true
      | _, _ => false
      end
  | None => false
  end.

(** The scores step raises: [.items()] at line 89, or the read of
    [json.load] at line 88. *)
Definition scores_step_raises (json_loads : string → option value)
    (text_decode : string → option string) (fs : gmap string string) : bool :=
  scores_not_a_dict json_loads fs || undecodable json_loads text_decode scores_file fs.

(** The exception with which the scores step raises, when it does. *)
Definition scores_step_exception (json_loads : string → option value)
    (fs : gmap string string) : exn :=
  if scores_not_a_dict json_loads fs then AttributeError else UnicodeDecodeError.

(** The retraining trigger of lines 116-131 fired: the line was written to
    the marker file and the external command was invoked. *)
Definition trigger_fired (env : Env) (t : list event) : Prop :=
  (120, write trigger_file (trigger_line (now env))) ∈ t ∧
  (125, subprocess_run dvc_argv) ∈ t.


(** The tracked run was ended with the status [s]. *)
Definition is_end_run (s : run_status) (e : event) : bool :=
  match e.2, s with
  | end_run FINISHED, FINISHED | end_run FAILED, FAILED => true
  | _, _ => false
  end.

(** The calls through which [main] is meant to reach files and processes:
    it tests, opens for reading and parses the two JSON files, opens for
    appending and writes the marker file, and runs the one command. *)
Definition within_footprint (e : event) : bool :=
  match e.2 with
  | path_exists p | json_load p =>
      StdString.eqb p scores_file || StdString.eqb p incorrect_file
  | open_file p m =>
      (StdString.eqb m "r" &&
       (StdString.eqb p scores_file || StdString.eqb p incorrect_file)) ||
      (StdString.eqb m "a" && StdString.eqb p trigger_file)
  | write p _ => StdString.eqb p trigger_file
  | subprocess_run argv => bool_decide (argv = dvc_argv)
  | _ => true
  end.

(** A call of the logger made from the given line. *)
Definition is_logger_at (line : nat) (e : event) : bool :=
  match e.2 with
  | logger _ => e.1 =? line
  | _ => false
  end.

(** A call that logs an item of the evaluation results (lines 74 and 77). *)
Definition is_result_log (e : event) : bool :=
  is_tracking_log_at 74 e || is_tracking_log_at 77 e.

(** The call that logs the item [(k, v)] of the evaluation results. *)
Definition result_log (kv : string * value) : event :=
  if isinstance_int_float kv.2
  then (74, log_metric kv.1 kv.2)
  else (77, log_param kv.1 (Str kv.2)).

(** The name of the parameter logged for the entry at [idx] (line 110). *)
Definition prediction_key (idx : nat) : string :=
  "incorrect_prediction_" +:+ pretty idx.

(** [f] is an observation that no reporting call satisfies. *)
Definition ignores_reporting (f : event → bool) : Prop :=
  ∀ e, is_reporting e = true → f e = false.

(** [t] is in step order and all of it lies in the phases [lo] to [hi]. *)
Definition ordered (lo hi : nat) (t : list event) : Prop :=
  in_step_order t ∧ Forall (λ e, lo ≤ phase e ≤ hi) t.

(** ** Example runs *)

Module Examples.

Definition dq : string := String "034" "".

(** [[3, 17, 21, 40, 41, 58]]: six misclassified samples. *)
Definition six_incorrect : string := "[3, 17, 21, 40, 41, 58]".
(** [[3, 17]]: two misclassified samples. *)
Definition two_incorrect : string := "[3, 17]".
(** A JSON object with the keys [accuracy] and [loss]. *)
Definition scores : string :=
  "{" +:+ dq +:+ "accuracy" +:+ dq +:+ ": 1, " +:+ dq +:+ "loss" +:+ dq +:+ ": 0}".
(** A document that is a JSON array, not an object. *)
Definition empty_array : string := "[]".

(** What [six_incorrect] parses to. *)
Definition six : value := VList [VInt 3; VInt 17; VInt 21; VInt 40; VInt 41; VInt 58].

(** [json.loads], restricted to the documents above; it raises on
    [truncated]. *)
Definition json_loads (txt : string) : option value :=
  if StdString.eqb txt six_incorrect
  then Some six
  else if StdString.eqb txt two_incorrect
  then Some (VList [VInt 3; VInt 17])
  else if StdString.eqb txt scores
  then Some (VDict [("accuracy", VInt 1); ("loss", VInt 0)])
  else if StdString.eqb txt empty_array
  then Some (VList [])
  else None.

(** [bytes.decode()], restricted to ASCII text: a byte above 127 on its
    own is not UTF-8. *)
Definition bytes_decode (b : string) : option string :=
  if forallb (λ c, nat_of_ascii c <? 128) (StdString.list_ascii_of_string b)
  then Some b else None.

(** Reading in text mode, in a locale whose encoding is UTF-8. *)
Definition text_decode : string → option string := bytes_decode.

Definition noon : datetime :=
  {| year := 2024; month := 3; day := 9;
     hour := 12; minute := 0; second := 7; microsecond := 0 |}.

Definition dvc_ok : CompletedProcess :=
  {| returncode := 0; stdout := "Running stage 'training'"; stderr := "" |}.
Definition dvc_failed : CompletedProcess :=
  {| returncode := 1; stdout := ""; stderr := "ERROR: failed to reproduce 'training'" |}.
Definition dvc_failed_garbled : CompletedProcess :=
  {| returncode := 1; stdout := ""; stderr := String "255" "" |}.

Definition env_with (results : value) (p : CompletedProcess) : Env :=
  {| params_image_size := VList [VInt 224; VInt 224; VInt 3];
     params_batch_size := VInt 16;
     evaluation_result := results;
     now := noon;
     dvc_repro_training := p |}.

Definition metrics : value :=
  VDict [("loss", VFloat (S754_finite false 1 (-1))); ("accuracy", VInt 1);
         ("model", VStr "vgg16")].

Definition files (l : list (string * string)) : gmap string string := list_to_map l.

Definition env_ok : Env := env_with metrics dvc_ok.
Definition env_failed : Env := env_with metrics dvc_failed.
Definition env_garbled : Env := env_with metrics dvc_failed_garbled.
Definition env_no_results : Env := env_with VNone dvc_ok.

(** What an earlier run left in the marker file. *)
Definition earlier_line : string :=
  "Retraining triggered at 2024-03-01T08:00:00" +:+ String "010" "".

Definition fs_six : gmap string string :=
  files [(scores_file, scores); (incorrect_file, six_incorrect);
         (trigger_file, earlier_line)].
Definition fs_two : gmap string string :=
  files [(scores_file, scores); (incorrect_file, two_incorrect)].
Definition fs_empty : gmap string string := files [].
Definition fs_scores_array : gmap string string :=
  files [(scores_file, empty_array); (incorrect_file, six_incorrect)].
Definition fs_scores_array_only : gmap string string :=
  files [(scores_file, empty_array)].

End Examples.

(** ** Further example runs *)

Module Corners.

(** A document that is a JSON number. *)
Definition seven : string := "7".

(** [json.loads], restricted to the documents of [Examples] and [seven]. *)
Definition json_loads (txt : string) : option value :=
  if StdString.eqb txt seven then Some (VInt 7) else Examples.json_loads txt.

(** The process succeeds and writes one byte that is not UTF-8. *)
Definition dvc_ok_garbled : CompletedProcess :=
  {| returncode := 0; stdout := String "255" ""; stderr := "" |}.

Definition env_ok_garbled : Env := Examples.env_with Examples.metrics dvc_ok_garbled.

Definition fs_seven : gmap string string :=
  Examples.files [(scores_file, Examples.scores); (incorrect_file, seven)].



End Corners.

Create HintDb trace.

(** ** The steps, as equations *)

Section Properties.
Import EvaluationPipeline.

#[local] Arguments for_each : simpl never.
#[local] Arguments trigger_line : simpl never.
#[local] Arguments strip : simpl never.

Context (json_loads : string → option value).
Context (text_decode : string → option string).
Context (bytes_decode : string → option string).
Context (env : Env).

Local Abbreviation log_scores := (log_scores json_loads text_decode).
Local Abbreviation trigger_retraining := (trigger_retraining bytes_decode env).
Local Abbreviation log_incorrect_predictions :=
  (log_incorrect_predictions json_loads text_decode bytes_decode env).
Local Abbreviation main := (main json_loads text_decode bytes_decode env).
Local Abbreviation scores_raises := (scores_step_raises json_loads text_decode).

Lemma log_results_run v fs :
  log_results v fs =
  Run (Returned ()) fs
      ((69, logger INFO) ::
       match v with
       | VDict (x :: d) => results_events (x :: d)
       | _ => [(80, logger WARNING)]
       end).
Proof.
  unfold log_results.
  destruct v as [| b | z | fl | s | l | [|x d]];
    cbn [isinstance_dict]; rewrite ?andb_false_r; try reflexivity.
  unfold bind. cbn.
  rewrite (for_each_emits (λ '(k, w),
    if isinstance_int_float w
    then [(74, log_metric k w); (75, logger INFO)]
    else [(77, log_param k (Str w)); (78, logger INFO)])).
  - reflexivity.
  - by intros [k w] fs'; destruct (isinstance_int_float w).
Qed.

Lemma open_r_some l p txt fs :
  fs !! p = Some txt → open_r l p fs = Run (Returned txt) fs [(l, open_file p "r")].
Proof. intros H. unfold open_r. by rewrite H. Qed.

Lemma json_load_file_some l p txt v fs :
  json_loads txt = Some v →
  json_load_file json_loads text_decode l p txt fs =
  Run (Returned v) fs [(l, json_load p)].
Proof. intros H. unfold json_load_file, bind. simpl. by rewrite H. Qed.

Lemma json_load_file_none l p txt fs :
  json_loads txt = None →
  json_load_file json_loads text_decode l p txt fs =
  Run (Raised match text_decode txt with
              | Some _ => JSONDecodeError
              | None => UnicodeDecodeError
              end)
      fs [(l, json_load p)].
Proof.
  intros H. unfold json_load_file, bind. simpl. rewrite H.
  by destruct (text_decode txt).
Qed.

(** With [json.load] as a read followed by a parse, [json_load_file] is the
    read, which raises where the content does not decode, followed by the
    parse of the text. *)
Lemma json_load_file_read_then_parse (parse : string → option value) l p content fs :
  json_load_file (λ c, text_decode c ≫= parse) text_decode l p content fs =
  (do emit l (json_load p);
   match text_decode content with
   | None => raise UnicodeDecodeError
   | Some txt =>
       match parse txt with
       | Some v => ret v
       | None => raise JSONDecodeError
       end
   end) fs.
Proof.
  unfold json_load_file, bind. simpl.
  destruct (text_decode content) as [txt|]; [|done]. simpl.
  by destruct (parse txt).
Qed.

Lemma exists_absent l p fs :
  fs !! p = None → exists_ l p fs = Run (Returned false) fs [(l, path_exists p)].
Proof. intros H. unfold exists_. by rewrite H. Qed.

Lemma exists_present l p txt fs :
  fs !! p = Some txt → exists_ l p fs = Run (Returned true) fs [(l, path_exists p)].
Proof. intros H. unfold exists_. by rewrite H. Qed.

Lemma scores_loop d fs :
  for_each d (λ '(metric, v),
    do emit 90 (log_metric metric v); emit 91 (logger INFO)) fs =
  Run (Returned ()) fs (scores_events d).
Proof. apply for_each_emits. by intros [k w] fs'. Qed.

Lemma predictions_loop l fs :
  for_each (enumerate l) (λ '(idx, pred),
    do emit 110 (log_param ("incorrect_prediction_" +:+ pretty idx) (Raw pred));
    emit 111 (logger DEBUG)) fs =
  Run (Returned ()) fs (prediction_events l).
Proof. apply for_each_emits. by intros [k w] fs'. Qed.

(** The scores step, by what [scores.json] holds. *)
Lemma log_scores_run fs :
  log_scores fs =
  match fs !! scores_file with
  | None =>
      Run (Returned ()) fs
          [(82, logger INFO); (85, path_exists scores_file); (95, logger WARNING)]
  | Some txt =>
      match json_loads txt with
      | None =>
          match text_decode txt with
          | Some _ =>
              Run (Returned ()) fs
                  [(82, logger INFO); (85, path_exists scores_file);
                   (87, open_file scores_file "r"); (88, json_load scores_file);
                   (93, logger ERROR)]
          | None =>
              Run (Raised UnicodeDecodeError) fs
                  [(82, logger INFO); (85, path_exists scores_file);
                   (87, open_file scores_file "r"); (88, json_load scores_file)]
          end
      | Some (VDict d) =>
          Run (Returned ()) fs
              ([(82, logger INFO); (85, path_exists scores_file);
                (87, open_file scores_file "r"); (88, json_load scores_file)]
               ++ scores_events d)
      | Some _ =>
          Run (Raised AttributeError) fs
              [(82, logger INFO); (85, path_exists scores_file);
               (87, open_file scores_file "r"); (88, json_load scores_file)]
      end
  end.
Proof.
  unfold EvaluationPipeline.log_scores.
  erewrite bind_step by reflexivity.
  destruct (fs !! scores_file) as [txt|] eqn:Hf.
  - erewrite bind_step by (by eapply exists_present).
    destruct (json_loads txt) as [v|] eqn:Hj.
    + destruct v as [| | | | | |d].
      all: try (erewrite try_raised;
        [|erewrite bind_step by (by eapply open_r_some);
          erewrite bind_step by (by eapply json_load_file_some);
          erewrite bind_stop by reflexivity; reflexivity];
        reflexivity).
      erewrite try_returned;
        [|erewrite bind_step by (by eapply open_r_some);
          erewrite bind_step by (by eapply json_load_file_some);
          erewrite bind_step by reflexivity;
          rewrite scores_loop; reflexivity].
      reflexivity.
    + erewrite try_raised;
        [|erewrite bind_step by (by eapply open_r_some);
          erewrite bind_stop by (by eapply json_load_file_none); reflexivity].
      by destruct (text_decode txt).
  - erewrite bind_step by (by eapply exists_absent). reflexivity.
Qed.

Lemma run_checked_zero l argv fs :
  (returncode (dvc_repro_training env) =? 0)%Z = true →
  run_checked env l argv fs =
  Run (Returned (dvc_repro_training env)) fs [(l, subprocess_run argv)].
Proof. intros H. unfold run_checked, bind. simpl. by rewrite H. Qed.

Lemma run_checked_nonzero l argv fs :
  (returncode (dvc_repro_training env) =? 0)%Z = false →
  run_checked env l argv fs =
  Run (Raised (CalledProcessError (returncode (dvc_repro_training env))
                 (stdout (dvc_repro_training env)) (stderr (dvc_repro_training env))))
      fs [(l, subprocess_run argv)].
Proof. intros H. unfold run_checked, bind. simpl. by rewrite H. Qed.

Lemma decode_some b s fs :
  bytes_decode b = Some s → decode bytes_decode b fs = Run (Returned s) fs [].
Proof. intros H. unfold decode. by rewrite H. Qed.

Lemma decode_none b fs :
  bytes_decode b = None → decode bytes_decode b fs = Run (Raised UnicodeDecodeError) fs [].
Proof. intros H. unfold decode. by rewrite H. Qed.

(** The retraining step: the append and the invocation always happen, in
    this order; how it ends depends on the process. *)
Lemma trigger_retraining_run fs :
  trigger_retraining fs =
  Run (retraining_report bytes_decode (dvc_repro_training env)).1
      (with_trigger_line (now env) fs)
      (retraining_events (now env) ++
       (retraining_report bytes_decode (dvc_repro_training env)).2).
Proof.
  unfold EvaluationPipeline.trigger_retraining, retraining_report.
  destruct (returncode (dvc_repro_training env) =? 0)%Z eqn:Hrc.
  - destruct (bytes_decode (stdout (dvc_repro_training env))) as [out|] eqn:Hout.
    + destruct (bytes_decode (stderr (dvc_repro_training env))) as [err|] eqn:Herr.
      * erewrite try_returned; [reflexivity|].
        erewrite bind_step by reflexivity.
        erewrite bind_step by reflexivity.
        erewrite bind_step by (by eapply run_checked_zero).
        erewrite bind_step by (by eapply decode_some).
        erewrite bind_step by (by eapply decode_some).
        by destruct (negb (StdString.eqb (strip out) "")),
                    (negb (StdString.eqb (strip err) "")).
      * erewrite try_raised; [|
          erewrite bind_step by reflexivity;
          erewrite bind_step by reflexivity;
          erewrite bind_step by (by eapply run_checked_zero);
          erewrite bind_step by (by eapply decode_some);
          erewrite bind_stop by (by eapply decode_none);
          reflexivity].
        reflexivity.
    + erewrite try_raised; [|
        erewrite bind_step by reflexivity;
        erewrite bind_step by reflexivity;
        erewrite bind_step by (by eapply run_checked_zero);
        erewrite bind_stop by (by eapply decode_none);
        reflexivity].
      by destruct (bytes_decode (stderr (dvc_repro_training env))).
  - erewrite try_raised; [|
      erewrite bind_step by reflexivity;
      erewrite bind_step by reflexivity;
      erewrite bind_stop by (by eapply run_checked_nonzero);
      reflexivity].
    cbv beta iota.
    destruct (bytes_decode (stderr (dvc_repro_training env))) as [err|] eqn:Herr.
    + erewrite bind_step by (by eapply decode_some). reflexivity.
    + erewrite bind_stop by (by eapply decode_none). reflexivity.
Qed.

Lemma retraining_report_result p :
  (retraining_report bytes_decode p).1 = Returned () ∨
  (retraining_report bytes_decode p).1 = Raised UnicodeDecodeError ∨
  (retraining_report bytes_decode p).1 =
    Raised (CalledProcessError (returncode p) (stdout p) (stderr p)).
Proof.
  unfold retraining_report.
  destruct (returncode p =? 0)%Z.
  - destruct (bytes_decode (stdout p)), (bytes_decode (stderr p)); auto.
  - destruct (bytes_decode (stderr p)); auto.
Qed.

Lemma len_some v n fs : py_len v = Some n → len v fs = Run (Returned n) fs [].
Proof. intros H. unfold len. by rewrite H. Qed.

Lemma len_none v fs : py_len v = None → len v fs = Run (Raised TypeError) fs [].
Proof. intros H. unfold len. by rewrite H. Qed.

(** The incorrect-predictions step, by what [incorrect_predictions.json]
    holds. *)
Lemma log_incorrect_predictions_run fs :
  log_incorrect_predictions fs =
  match fs !! incorrect_file with
  | None =>
      Run (Returned ()) fs
          [(97, logger INFO); (100, path_exists incorrect_file); (148, logger WARNING)]
  | Some txt =>
      match json_loads txt with
      | None =>
          match text_decode txt with
          | Some _ => Run (Returned ()) fs (incorrect_opening ++ [(146, logger ERROR)])
          | None => Run (Raised UnicodeDecodeError) fs incorrect_opening
          end
      | Some data =>
          match py_len data with
          | None => Run (Raised TypeError) fs incorrect_opening
          | Some n =>
              if 5 <? n then
                Run (retraining_report bytes_decode (dvc_repro_training env)).1
                    (with_trigger_line (now env) fs)
                    (incorrect_opening ++ incorrect_logging data n ++
                     (115, logger INFO) :: retraining_events (now env) ++
                     (retraining_report bytes_decode (dvc_repro_training env)).2)
              else
                Run (Returned ()) fs (incorrect_opening ++ incorrect_logging data n)
          end
      end
  end.
Proof.
  unfold EvaluationPipeline.log_incorrect_predictions.
  erewrite bind_step by reflexivity.
  destruct (fs !! incorrect_file) as [txt|] eqn:Hf.
  2: { erewrite bind_step by (by eapply exists_absent). reflexivity. }
  erewrite bind_step by (by eapply exists_present).
  destruct (json_loads txt) as [data|] eqn:Hj.
  2: { erewrite try_raised; [|
         erewrite bind_step by (by eapply open_r_some);
         erewrite bind_stop by (by eapply json_load_file_none); reflexivity].
       by destruct (text_decode txt). }
  destruct (py_len data) as [n|] eqn:Hn.
  2: { erewrite try_raised; [|
         erewrite bind_step by (by eapply open_r_some);
         erewrite bind_step by (by eapply json_load_file_some);
         erewrite bind_stop by (by eapply len_none); reflexivity].
       reflexivity. }
  destruct (5 <? n) eqn:Hgt.
  2: { erewrite try_returned; [|
         erewrite bind_step by (by eapply open_r_some);
         erewrite bind_step by (by eapply json_load_file_some);
         erewrite bind_step by (by eapply len_some);
         erewrite bind_step by reflexivity;
         erewrite bind_step by reflexivity;
         erewrite bind_step by (by eapply predictions_loop);
         rewrite Hgt; reflexivity].
       unfold prepend, incorrect_opening, incorrect_logging. simpl.
       by rewrite app_nil_r. }
  assert (
    (do txt <- open_r 102 incorrect_file;
     do incorrect_data <- json_load_file json_loads text_decode 103 incorrect_file txt;
     do num_incorrect <- len incorrect_data;
     do emit 105 (log_metric "num_incorrect_predictions" (VInt (Z.of_nat num_incorrect)));
     do emit 106 (logger INFO);
     do for_each (enumerate (py_iter incorrect_data)) (λ '(idx, pred),
          do emit 110 (log_param ("incorrect_prediction_" +:+ pretty idx) (Raw pred));
          emit 111 (logger DEBUG));
     if 5 <? num_incorrect then
       do emit 115 (logger INFO);
       trigger_retraining
     else ret ()) fs =
    Run (retraining_report bytes_decode (dvc_repro_training env)).1
        (with_trigger_line (now env) fs)
        ([(102, open_file incorrect_file "r"); (103, json_load incorrect_file)] ++
         incorrect_logging data n ++
         (115, logger INFO) :: retraining_events (now env) ++
         (retraining_report bytes_decode (dvc_repro_training env)).2)) as Hbody.
  { erewrite bind_step by (by eapply open_r_some).
    erewrite bind_step by (by eapply json_load_file_some).
    erewrite bind_step by (by eapply len_some).
    erewrite bind_step by reflexivity.
    erewrite bind_step by reflexivity.
    erewrite bind_step by (by eapply predictions_loop).
    rewrite Hgt.
    erewrite bind_step by reflexivity.
    rewrite trigger_retraining_run.
    unfold prepend, incorrect_logging. simpl.
    by rewrite <-?app_assoc. }
  destruct (retraining_report_result (dvc_repro_training env)) as [Hr|[Hr|Hr]];
    rewrite Hr in Hbody.
  - erewrite try_returned by exact Hbody. by rewrite Hr.
  - erewrite try_raised by exact Hbody. by rewrite Hr.
  - erewrite try_raised by exact Hbody. by rewrite Hr.
Qed.

Lemma log_scores_keeps_files : keeps_files log_scores.
Proof.
  intros fs. rewrite log_scores_run.
  destruct (fs !! scores_file) as [txt|]; [|done].
  destruct (json_loads txt) as [[]|]; try done.
  by destruct (text_decode txt).
Qed.

Lemma finally_end_run_run {A} line (body : M A) fs r fs1 t1 :
  body fs = Run r fs1 t1 →
  finally_end_run line body fs =
  Run r fs1 (t1 ++ [(line, end_run (match r with
                                    | Returned _ => FINISHED
                                    | Raised _ => FAILED
                                    end))]).
Proof. intros H. unfold finally_end_run. by rewrite H. Qed.

(** [main], in terms of its last two steps: the scores step either raises,
    which ends the run, or hands over to the incorrect-predictions step,
    whose result is the result of [main]. *)
Lemma main_run fs :
  main fs =
  let before :=
    main_prefix env ++ trace_of (log_results (evaluation_result env) fs) ++
    trace_of (log_scores fs) in
  match result_of (log_scores fs) with
  | Raised e => Run (Raised e) fs (before ++ [(57, end_run FAILED)])
  | Returned _ =>
      let ri := log_incorrect_predictions fs in
      match result_of ri with
      | Returned _ =>
          Run (Returned ()) (fs_of ri)
              (before ++ trace_of ri ++ [(57, end_run FINISHED); (150, logger INFO)])
      | Raised e =>
          Run (Raised e) (fs_of ri) (before ++ trace_of ri ++ [(57, end_run FAILED)])
      end
  end.
Proof.
  unfold EvaluationPipeline.main.
  do 6 (erewrite bind_step by reflexivity).
  pose proof (log_scores_keeps_files fs) as Hfs.
  destruct (log_scores fs) as [rs fs1 ts] eqn:Hs. simpl in Hfs. subst fs1.
  cbn [result_of trace_of].
  set (body :=
    (do emit 58 (logger INFO);
     do emit 60 (log_param "image_size" (Raw (params_image_size env)));
     do emit 61 (log_param "batch_size" (Raw (params_batch_size env)));
     do emit 63 (logger INFO);
     do emit 65 evaluation;
     do emit 67 (logger INFO);
     do log_results (evaluation_result env);
     do log_scores; log_incorrect_predictions)).
  set (tr := trace_of (log_results (evaluation_result env) fs)).
  assert (log_results (evaluation_result env) fs = Run (Returned ()) fs tr) as Hr
    by (unfold tr; by rewrite log_results_run).
  clearbody tr.
  set (inner :=
    [(57, start_run STAGE_NAME); (58, logger INFO);
     (60, log_param "image_size" (Raw (params_image_size env)));
     (61, log_param "batch_size" (Raw (params_batch_size env)));
     (63, logger INFO); (65, evaluation); (67, logger INFO)] ++ tr ++ ts).
  destruct rs as [[]|e].
  - destruct (log_incorrect_predictions fs) as [ri fs2 ti] eqn:Hi.
    cbn [result_of trace_of fs_of].
    assert (body fs = Run ri fs2 (tl inner ++ ti)) as Hbody.
    { unfold body.
      do 6 (erewrite bind_step by reflexivity).
      erewrite bind_step by exact Hr.
      erewrite bind_step by exact Hs.
      rewrite Hi. norm_run. unfold inner. simpl. by rewrite <-!app_assoc. }
    assert (with_start_run 57 STAGE_NAME body fs =
      Run ri fs2
        (inner ++ ti ++
         [(57, end_run (match ri with Returned _ => FINISHED | Raised _ => FAILED end))]))
      as Hblock.
    { unfold with_start_run. erewrite bind_step by reflexivity.
      erewrite finally_end_run_run by exact Hbody.
      norm_run. unfold inner. simpl. by rewrite <-!app_assoc. }
    destruct ri as [[]|e].
    + erewrite bind_step by exact Hblock.
      norm_run.
      unfold inner, main_prefix. simpl. by rewrite <-!app_assoc.
    + erewrite bind_stop by exact Hblock.
      norm_run.
      unfold inner, main_prefix. simpl. by rewrite <-!app_assoc.
  - assert (body fs = Run (Raised e) fs (tl inner)) as Hbody.
    { unfold body.
      do 6 (erewrite bind_step by reflexivity).
      erewrite bind_step by exact Hr.
      erewrite bind_stop by exact Hs.
      by norm_run. }
    erewrite bind_stop; [|
      unfold with_start_run; erewrite bind_step by reflexivity;
      erewrite finally_end_run_run by exact Hbody;
      norm_run; reflexivity].
    norm_run.
    unfold inner, main_prefix. simpl. by rewrite <-!app_assoc.
Qed.

(** ** Counting calls *)

Lemma count_app f t1 t2 : count f (t1 ++ t2) = count f t1 + count f t2.
Proof. unfold count. by rewrite List.filter_app, length_app. Qed.

Lemma count_cons f e t : count f (e :: t) = (if f e then 1 else 0) + count f t.
Proof. unfold count. simpl. by destruct (f e). Qed.

Lemma count_nil f : count f [] = 0.
Proof. done. Qed.

Lemma count_reports f t :
  ignores_reporting f → forallb is_reporting t = true → count f t = 0.
Proof.
  intros Hf. induction t as [|e t IH]; [done|].
  simpl. intros [He Ht]%andb_true_iff.
  rewrite count_cons, (Hf e He). auto.
Qed.

Lemma forallb_bind {X} (f : event → bool) (g : X → list event) (l : list X) :
  (∀ x, forallb f (g x) = true) → forallb f (l ≫= g) = true.
Proof.
  intros Hg. induction l as [|x l IH]; [done|].
  cbn. by rewrite forallb_app, Hg, IH.
Qed.

Lemma results_events_report d : forallb is_reporting (results_events d) = true.
Proof. apply forallb_bind. intros [k v]. by destruct (isinstance_int_float v). Qed.

Lemma scores_events_report d : forallb is_reporting (scores_events d) = true.
Proof. apply forallb_bind. by intros [k v]. Qed.

Lemma prediction_events_report l : forallb is_reporting (prediction_events l) = true.
Proof. apply forallb_bind. by intros [k v]. Qed.

Lemma retraining_report_report p :
  forallb is_reporting (retraining_report bytes_decode p).2 = true.
Proof.
  unfold retraining_report.
  destruct (returncode p =? 0)%Z.
  - destruct (bytes_decode (stdout p)) as [out|]; [|done].
    destruct (bytes_decode (stderr p)) as [err|]; [|done].
    by destruct (negb (StdString.eqb (strip out) "")),
                (negb (StdString.eqb (strip err) "")).
  - by destruct (bytes_decode (stderr p)).
Qed.

Lemma log_results_report v fs :
  forallb is_reporting (trace_of (log_results v fs)) = true.
Proof.
  rewrite log_results_run. cbn [trace_of forallb].
  destruct v as [| | | | | |[|x d]]; try done.
  apply results_events_report.
Qed.

Lemma ignores_is_evaluation : ignores_reporting is_evaluation.
Proof. by intros [l []]. Qed.

Lemma ignores_is_subprocess_run : ignores_reporting is_subprocess_run.
Proof. by intros [l []]. Qed.

Lemma ignores_is_write : ignores_reporting is_write.
Proof. by intros [l []]. Qed.

Lemma ignores_is_path_exists p : ignores_reporting (is_path_exists p).
Proof. by intros [l []]. Qed.

Lemma ignores_is_json_load p : ignores_reporting (is_json_load p).
Proof. by intros [l []]. Qed.

#[local] Hint Resolve ignores_is_evaluation ignores_is_subprocess_run ignores_is_write
  ignores_is_path_exists ignores_is_json_load
  results_events_report scores_events_report prediction_events_report
  retraining_report_report log_results_report : trace.

(** The scores step makes no call but to test, open and parse
    [scores.json], and to report. *)
Lemma count_log_scores f fs :
  ignores_reporting f →
  (∀ l, f (l, path_exists scores_file) = false) →
  (∀ l, f (l, open_file scores_file "r") = false) →
  (∀ l, f (l, json_load scores_file) = false) →
  count f (trace_of (log_scores fs)) = 0.
Proof.
  intros Hf H1 H2 H3. rewrite log_scores_run.
  destruct (fs !! scores_file) as [txt|].
  - destruct (json_loads txt) as [[]|]; try destruct (text_decode txt); cbn [trace_of];
      rewrite ?count_app, ?count_cons, ?count_nil, ?H1, ?H2, ?H3,
        ?(count_reports f (scores_events _)) by auto with trace;
      by rewrite ?Hf.
  - cbn [trace_of]. rewrite !count_cons, H1. by rewrite !Hf.
Qed.

Lemma exceeds_threshold_spec fs :
  exceeds_threshold json_loads fs = true ↔
  ∃ txt data n, fs !! incorrect_file = Some txt ∧ json_loads txt = Some data ∧
                py_len data = Some n ∧ 5 < n.
Proof.
  unfold exceeds_threshold. split.
  - destruct (fs !! incorrect_file) as [txt|]; [|done].
    destruct (json_loads txt) as [data|] eqn:Hj; [|done].
    destruct (py_len data) as [n|] eqn:Hn; [|done].
    intros H%Nat.ltb_lt. by exists txt, data, n.
  - intros (txt & data & n & -> & -> & -> & H). by apply Nat.ltb_lt.
Qed.

(** Beyond testing, opening and parsing its file and reporting, the
    incorrect-predictions step makes the calls of the retraining step, and
    makes them exactly when the threshold is exceeded. *)
Lemma count_log_incorrect_predictions f fs :
  ignores_reporting f →
  (∀ l, f (l, path_exists incorrect_file) = false) →
  (∀ l, f (l, open_file incorrect_file "r") = false) →
  (∀ l, f (l, json_load incorrect_file) = false) →
  count f (trace_of (log_incorrect_predictions fs)) =
  if exceeds_threshold json_loads fs then count f (retraining_events (now env)) else 0.
Proof.
  intros Hf H1 H2 H3.
  rewrite log_incorrect_predictions_run. unfold exceeds_threshold.
  assert (count f incorrect_opening = 0) as Ho.
  { unfold incorrect_opening. rewrite !count_cons, H1, H2, H3. by rewrite Hf. }
  assert (∀ data n, count f (incorrect_logging data n) = 0) as Hl.
  { intros data n. unfold incorrect_logging.
    rewrite count_app, !count_cons, count_nil,
      (count_reports f (prediction_events _)) by auto with trace.
    by rewrite !Hf. }
  destruct (fs !! incorrect_file) as [txt|].
  2: { cbn [trace_of]. rewrite !count_cons, H1. by rewrite !Hf. }
  destruct (json_loads txt) as [data|].
  2: { destruct (text_decode txt); cbn [trace_of]; [|done].
       rewrite count_app, Ho, !count_cons. by rewrite Hf. }
  destruct (py_len data) as [n|]; [|done].
  destruct (5 <? n); cbn [trace_of].
  - rewrite !count_app, count_cons, !count_app, Ho, Hl.
    rewrite (count_reports f (retraining_report _ _).2) by auto with trace.
    rewrite Hf by done. lia.
  - by rewrite count_app, Ho, Hl.
Qed.

(** A count over the whole run, for an observation that concerns none of
    the calls of lines 40-95 and neither the end of the tracked run. *)
Lemma count_main f fs :
  ignores_reporting f →
  (∀ l, f (l, path_exists scores_file) = false) →
  (∀ l, f (l, open_file scores_file "r") = false) →
  (∀ l, f (l, json_load scores_file) = false) →
  (∀ l s, f (l, end_run s) = false) →
  count f (trace_of (main fs)) =
  count f (main_prefix env) +
  match result_of (log_scores fs) with
  | Returned _ => count f (trace_of (log_incorrect_predictions fs))
  | Raised _ => 0
  end.
Proof.
  intros Hf H1 H2 H3 H4. rewrite main_run. cbv zeta.
  destruct (result_of (log_scores fs)) as [[]|e].
  - destruct (result_of (log_incorrect_predictions fs)) as [[]|e]; cbn [trace_of];
      rewrite !count_app, !count_cons, count_nil, count_log_scores,
        (count_reports f (trace_of (log_results _ _))), ?H4 by auto with trace;
      rewrite ?Hf by done; lia.
  - cbn [trace_of].
    rewrite !count_app, !count_cons, count_nil, count_log_scores,
      (count_reports f (trace_of (log_results _ _))), ?H4 by auto with trace.
    lia.
Qed.

(** The scores step raises exactly when the file parses to something
    that is not a dict, or does not decode. *)
Lemma log_scores_result fs :
  result_of (log_scores fs) =
  if scores_raises fs then Raised (scores_step_exception json_loads fs)
  else Returned ().
Proof.
  rewrite log_scores_run.
  unfold scores_step_raises, scores_step_exception, scores_not_a_dict, undecodable.
  destruct (fs !! scores_file) as [txt|]; [|done].
  destruct (json_loads txt) as [[]|]; try done.
  by destruct (text_decode txt).
Qed.

Lemma scores_raises_absent fs : fs !! scores_file = None → scores_raises fs = false.
Proof.
  intros H. unfold scores_step_raises, scores_not_a_dict, undecodable. by rewrite H.
Qed.

Lemma scores_raises_dict fs txt d :
  fs !! scores_file = Some txt → json_loads txt = Some (VDict d) →
  scores_raises fs = false.
Proof.
  intros H Hj. unfold scores_step_raises, scores_not_a_dict, undecodable.
  by rewrite H, Hj.
Qed.


Lemma scores_raises_not_a_dict fs :
  scores_not_a_dict json_loads fs = true →
  scores_raises fs = true ∧ scores_step_exception json_loads fs = AttributeError.
Proof.
  intros H. unfold scores_step_raises, scores_step_exception. by rewrite H.
Qed.


(** A count over the whole run, by the two conditions the run depends on. *)
Lemma count_main_cases f fs :
  ignores_reporting f →
  (∀ l p, f (l, path_exists p) = false) →
  (∀ l p m, f (l, open_file p m) = false) →
  (∀ l p, f (l, json_load p) = false) →
  (∀ l s, f (l, end_run s) = false) →
  count f (trace_of (main fs)) =
  count f (main_prefix env) +
  if scores_raises fs then 0
  else if exceeds_threshold json_loads fs then count f (retraining_events (now env))
  else 0.
Proof.
  intros Hf H1 H2 H3 H4.
  rewrite count_main, log_scores_result by auto.
  destruct (scores_raises fs); [done|].
  by rewrite count_log_incorrect_predictions by auto.
Qed.

Lemma count_elem_of f e t : e ∈ t → f e = true → 0 < count f t.
Proof.
  intros Hin He. induction t as [|e' t IH]; [by apply elem_of_nil in Hin|].
  rewrite count_cons. apply elem_of_cons in Hin as [->|Hin].
  - rewrite He. lia.
  - specialize (IH Hin). destruct (f e'); lia.
Qed.

(** ** The claims *)

(** C7. In every run of [main] the evaluation function is called exactly
    once, and an external command is run at most once: either not at all,
    or once, and then [incorrect_predictions.json] exists, parses and holds
    more than 5 entries. *)
Theorem evaluation_once_external_command_at_most_once fs :
  count is_evaluation (trace_of (main fs)) = 1 ∧
  (count is_subprocess_run (trace_of (main fs)) = 0 ∨
   count is_subprocess_run (trace_of (main fs)) = 1 ∧
   ∃ txt data n, fs !! incorrect_file = Some txt ∧ json_loads txt = Some data ∧
                 py_len data = Some n ∧ 5 < n).
Proof.
  rewrite !count_main_cases by (auto with trace; done).
  split.
  - by destruct (scores_raises fs), (exceeds_threshold json_loads fs).
  - destruct (scores_raises fs); [by left|].
    destruct (exceeds_threshold json_loads fs) eqn:Hx; [|by left].
    right. split; [done|]. by apply exceeds_threshold_spec.
Qed.

(** The run gets to the incorrect-predictions step exactly when the scores
    step has not raised. *)
Lemma probed_incorrect_file fs :
  probed incorrect_file (trace_of (main fs)) = negb (scores_raises fs).
Proof.
  unfold probed. rewrite count_main, log_scores_result by (auto with trace; done).
  destruct (scores_raises fs); [done|].
  rewrite log_incorrect_predictions_run.
  destruct (fs !! incorrect_file) as [txt|]; [|done].
  destruct (json_loads txt) as [data|]; [|by destruct (text_decode txt)].
  destruct (py_len data) as [n|]; [|done].
  by destruct (5 <? n).
Qed.

Lemma parsed_incorrect_file fs :
  parsed incorrect_file (trace_of (main fs)) = true →
  scores_raises fs = false.
Proof.
  unfold parsed. rewrite count_main, log_scores_result by (auto with trace; done).
  by destruct (scores_raises fs).
Qed.

Lemma main_trace_incorrect fs :
  scores_raises fs = false →
  ∃ before after,
    trace_of (main fs) = before ++ trace_of (log_incorrect_predictions fs) ++ after.
Proof.
  intros Hs. rewrite main_run, log_scores_result, Hs. cbv zeta.
  destruct (result_of (log_incorrect_predictions fs)); eauto.
Qed.

(** C1, amended. In every run of [main] that parses
    [incorrect_predictions.json] (line 103) to a collection of length [n],
    the retraining trigger fires, that is the line is appended to
    [retrain_trigger.txt] and [dvc repro training] is invoked, if and only
    if [n > 5]; for [n <= 5] no file is written and no external command is
    invoked. *)
Theorem retraining_trigger_iff_threshold fs txt data n :
  parsed incorrect_file (trace_of (main fs)) = true →
  fs !! incorrect_file = Some txt →
  json_loads txt = Some data →
  py_len data = Some n →
  (trigger_fired env (trace_of (main fs)) ↔ 5 < n) ∧
  (n ≤ 5 →
   appended (trace_of (main fs)) = false ∧ invoked (trace_of (main fs)) = false).
Proof.
  intros Hp%parsed_incorrect_file Hf Hj Hn.
  assert (exceeds_threshold json_loads fs = (5 <? n)) as Hx
    by (unfold exceeds_threshold; by rewrite Hf, Hj, Hn).
  split; [split|].
  - intros [Hw _].
    apply (count_elem_of is_write) in Hw; [|done].
    rewrite count_main_cases, Hp, Hx in Hw by (auto with trace; done).
    destruct (5 <? n) eqn:Hgt; [by apply Nat.ltb_lt|].
    simpl in Hw. lia.
  - intros Hgt%Nat.ltb_lt.
    destruct (main_trace_incorrect fs Hp) as (before & after & ->).
    rewrite log_incorrect_predictions_run, Hf, Hj, Hn, Hgt. cbn [trace_of].
    unfold trigger_fired, retraining_events.
    split; rewrite !elem_of_app, !elem_of_cons; set_solver.
  - intros Hle. assert ((5 <? n) = false) as Hgt by (apply Nat.ltb_ge; lia).
    unfold appended, invoked.
    by rewrite !count_main_cases, Hp, Hx, Hgt by (auto with trace; done).
Qed.

Lemma length_list_ascii_of_string s :
  length (StdString.list_ascii_of_string s) = StdString.length s.
Proof. induction s as [|c s IH]; simpl; congruence. Qed.

(** Iterating over a value that has a length yields that many entries. *)
Lemma py_iter_length data n : py_len data = Some n → length (py_iter data) = n.
Proof.
  destruct data; simpl; intros [= <-]; try done.
  - by rewrite length_fmap, length_list_ascii_of_string.
  - by rewrite length_fmap.
Qed.

Lemma prediction_events_lookup l i pred :
  l !! i = Some pred →
  (110, log_param ("incorrect_prediction_" +:+ pretty i) (Raw pred))
    ∈ prediction_events l.
Proof.
  intros Hi. unfold prediction_events, enumerate.
  apply list_elem_of_bind. exists (i, pred). split.
  - apply list_elem_of_here.
  - by apply (elem_of_lookup_imap_2 (λ i x, (i, x))).
Qed.

(** C5, amended. In every run of [main] that parses
    [incorrect_predictions.json] (line 103) to a collection of [n] entries,
    the metric [num_incorrect_predictions] is logged with the value [n], and
    for every index [i < n] the parameter [incorrect_prediction_i] is logged
    with the entry that iterating over the collection yields at [i]: the
    element of a list, the key of a dict, the character of a string. *)
Theorem incorrect_predictions_logged fs txt data n :
  parsed incorrect_file (trace_of (main fs)) = true →
  fs !! incorrect_file = Some txt →
  json_loads txt = Some data →
  py_len data = Some n →
  (105, log_metric "num_incorrect_predictions" (VInt (Z.of_nat n)))
    ∈ trace_of (main fs) ∧
  ∀ i, i < n →
    ∃ pred, py_iter data !! i = Some pred ∧
            (110, log_param ("incorrect_prediction_" +:+ pretty i) (Raw pred))
              ∈ trace_of (main fs).
Proof.
  intros Hp%parsed_incorrect_file Hf Hj Hn.
  destruct (main_trace_incorrect fs Hp) as (before & after & ->).
  assert (∃ rest, trace_of (log_incorrect_predictions fs) =
                  incorrect_opening ++ incorrect_logging data n ++ rest)
    as [rest ->].
  { rewrite log_incorrect_predictions_run, Hf, Hj, Hn.
    destruct (5 <? n); cbn [trace_of]; [eauto|].
    exists []. by rewrite app_nil_r. }
  unfold incorrect_logging. split.
  - rewrite !elem_of_app, !elem_of_cons. set_solver.
  - intros i Hi.
    destruct (lookup_lt_is_Some_2 (py_iter data) i) as [pred Hpred];
      [by rewrite (py_iter_length data n)|].
    pose proof (prediction_events_lookup _ _ _ Hpred) as Hev.
    exists pred. split; [done|].
    rewrite !elem_of_app. tauto.
Qed.

(** For the list a JSON array parses to, the entry at [i] is its element. *)
Lemma py_iter_list l : py_iter (VList l) = l.
Proof. done. Qed.

(** Every run starts with the calls of lines 40-67, logs the results and
    goes on to the scores step. *)
Lemma main_trace_results fs :
  ∃ after,
    trace_of (main fs) =
    main_prefix env ++ trace_of (log_results (evaluation_result env) fs) ++
    trace_of (log_scores fs) ++ after.
Proof.
  rewrite main_run. cbv zeta.
  destruct (result_of (log_scores fs)).
  - destruct (result_of (log_incorrect_predictions fs)); cbn [trace_of];
      rewrite <-!app_assoc; eauto.
  - cbn [trace_of]. rewrite <-!app_assoc. eauto.
Qed.

Lemma log_scores_starts fs :
  ∃ rest,
    trace_of (log_scores fs) =
    [(82, logger INFO); (85, path_exists scores_file)] ++ rest.
Proof.
  rewrite log_scores_run.
  destruct (fs !! scores_file) as [txt|]; [|cbn; eauto].
  destruct (json_loads txt) as [[]|]; try destruct (text_decode txt); cbn; eauto.
Qed.

(** C4. For every dict the evaluation function returns, [main] logs each of
    its items: under its key, as a metric when the value is an [int] or a
    [float] (a [bool] is an [int]), and otherwise as a parameter whose
    value is [str] of the value. *)
Theorem evaluation_results_logged fs d k v :
  evaluation_result env = VDict d →
  (k, v) ∈ d →
  if isinstance_int_float v
  then (74, log_metric k v) ∈ trace_of (main fs)
  else (77, log_param k (Str v)) ∈ trace_of (main fs).
Proof.
  intros Hr Hkv.
  destruct (main_trace_results fs) as [after ->].
  rewrite log_results_run, Hr. cbn [trace_of].
  assert (∀ e, e ∈ results_events d →
            e ∈ main_prefix env ++
                ((69, logger INFO) ::
                 match d with
                 | [] => [(80, logger WARNING)]
                 | x :: d0 => results_events (x :: d0)
                 end) ++ trace_of (log_scores fs) ++ after) as Hin.
  { intros e He. rewrite !elem_of_app, elem_of_cons.
    destruct d; [by apply elem_of_nil in Hkv|]. tauto. }
  destruct (isinstance_int_float v) eqn:Hv; apply Hin, list_elem_of_bind;
    exists (k, v); (split; [|done]); rewrite Hv; apply list_elem_of_here.
Qed.

(** C10. If the evaluation function returns a value that is not a dict, or
    one that is falsy (the empty dict among them), the results step only
    warns: [main] logs no metric and no parameter from the value, and goes
    on to test whether [scores.json] exists. *)
Theorem no_results_nothing_logged fs :
  isinstance_dict (evaluation_result env) = false ∨
  truthy (evaluation_result env) = false →
  log_results (evaluation_result env) fs =
    Run (Returned ()) fs [(69, logger INFO); (80, logger WARNING)] ∧
  ∃ rest,
    trace_of (main fs) =
    main_prefix env ++
    [(69, logger INFO); (80, logger WARNING);
     (82, logger INFO); (85, path_exists scores_file)] ++ rest.
Proof.
  intros Hr.
  assert (log_results (evaluation_result env) fs =
          Run (Returned ()) fs [(69, logger INFO); (80, logger WARNING)]) as Hl.
  { rewrite log_results_run.
    destruct (evaluation_result env) as [| | | | | |[|x d]]; try done.
    by destruct Hr. }
  split; [done|].
  destruct (main_trace_results fs) as [after ->].
  destruct (log_scores_starts fs) as [rest ->].
  rewrite Hl. cbn [trace_of]. exists (rest ++ after).
  by rewrite <-!app_assoc.
Qed.

(** How [main] ends, and the file system it leaves. *)
Lemma main_result fs :
  result_of (main fs) =
  if scores_raises fs then Raised (scores_step_exception json_loads fs)
  else result_of (log_incorrect_predictions fs).
Proof.
  rewrite main_run, log_scores_result. cbv zeta.
  destruct (scores_raises fs); [done|].
  by destruct (result_of (log_incorrect_predictions fs)) as [[]|].
Qed.

Lemma main_files fs :
  fs_of (main fs) =
  if scores_raises fs then fs
  else if exceeds_threshold json_loads fs then with_trigger_line (now env) fs
  else fs.
Proof.
  rewrite main_run, log_scores_result. cbv zeta.
  destruct (scores_raises fs); [done|].
  assert (fs_of (log_incorrect_predictions fs) =
          if exceeds_threshold json_loads fs then with_trigger_line (now env) fs
          else fs) as <-.
  { rewrite log_incorrect_predictions_run. unfold exceeds_threshold.
    destruct (fs !! incorrect_file) as [txt|]; [|done].
    destruct (json_loads txt) as [data|]; [|by destruct (text_decode txt)].
    destruct (py_len data) as [n|]; [|done].
    by destruct (5 <? n). }
  by destruct (result_of (log_incorrect_predictions fs)).
Qed.


(** C2, amended. If [scores.json] does not exist, the scores step is
    skipped and the run goes on, without raising, to the
    incorrect-predictions step. If [incorrect_predictions.json] does not
    exist in a run that gets to that step, the step is skipped, nothing is
    written, no external command is invoked, and [main] returns normally. *)
Theorem missing_files_are_skipped fs :
  (fs !! scores_file = None →
   log_scores fs =
     Run (Returned ()) fs
         [(82, logger INFO); (85, path_exists scores_file); (95, logger WARNING)] ∧
   probed incorrect_file (trace_of (main fs)) = true) ∧
  (fs !! incorrect_file = None →
   probed incorrect_file (trace_of (main fs)) = true →
   log_incorrect_predictions fs =
     Run (Returned ()) fs
         [(97, logger INFO); (100, path_exists incorrect_file); (148, logger WARNING)] ∧
   appended (trace_of (main fs)) = false ∧
   invoked (trace_of (main fs)) = false ∧
   main fs = Run (Returned ()) fs (trace_of (main fs))).
Proof.
  split.
  - intros Hs. split; [by rewrite log_scores_run, Hs|].
    by rewrite probed_incorrect_file, scores_raises_absent.
  - intros Hi Hp. rewrite probed_incorrect_file in Hp.
    apply negb_true_iff in Hp.
    assert (log_incorrect_predictions fs =
            Run (Returned ()) fs
                [(97, logger INFO); (100, path_exists incorrect_file);
                 (148, logger WARNING)]) as Hstep
      by (by rewrite log_incorrect_predictions_run, Hi).
    assert (exceeds_threshold json_loads fs = false) as Hx
      by (unfold exceeds_threshold; by rewrite Hi).
    split; [done|]. unfold appended, invoked.
    rewrite !count_main_cases, Hp, Hx by (auto with trace; done).
    do 2 (split; [done|]).
    apply run_eq.
    + by rewrite main_result, Hp, Hstep.
    + by rewrite main_files, Hp, Hx.
Qed.


(** ** The line written to the marker file *)

Lemma newlines_app s1 s2 : newlines (s1 +:+ s2) = newlines s1 + newlines s2.
Proof.
  induction s1 as [|c s1 IH]; [done|].
  change (String c s1 +:+ s2) with (String c (s1 +:+ s2)).
  simpl. rewrite IH. lia.
Qed.

Lemma digit_not_newline n : Ascii.eqb (digit n) "010" = false.
Proof.
  unfold digit.
  assert (n `mod` 10 < 10) as Hm by (apply Nat.mod_upper_bound; lia).
  revert Hm. generalize (n `mod` 10). intros m Hm.
  do 10 (destruct m as [|m]; [reflexivity|]). lia.
Qed.

Lemma newlines_zero_padded w n : newlines (zero_padded w n) = 0.
Proof.
  revert n. induction w as [|w IH]; intros n; [done|].
  change (zero_padded (S w) n)
    with (zero_padded w (n `div` 10) +:+ String (digit n) "").
  rewrite newlines_app, IH.
  change (newlines (String (digit n) ""))
    with ((if Ascii.eqb (digit n) "010" then 1 else 0) + 0).
  by rewrite digit_not_newline.
Qed.

Lemma newlines_isoformat t : newlines (isoformat t) = 0.
Proof.
  unfold isoformat. rewrite !newlines_app, !newlines_zero_padded.
  destruct (microsecond t =? 0); [done|].
  by rewrite newlines_app, newlines_zero_padded.
Qed.

Lemma append_assoc (s1 s2 s3 : string) : (s1 +:+ s2) +:+ s3 = s1 +:+ s2 +:+ s3.
Proof.
  induction s1 as [|c s1 IH]; [done|].
  change (String c s1 +:+ s2) with (String c (s1 +:+ s2)).
  change (String c (s1 +:+ s2) +:+ s3) with (String c ((s1 +:+ s2) +:+ s3)).
  by rewrite IH.
Qed.

(** C3. Whenever the retraining trigger fires, [retrain_trigger.txt] ends
    up holding what it held before (nothing, when it did not exist)
    followed by one new line: the text [Retraining triggered at] with the
    timestamp, which holds no newline, and then a newline. It is the only
    write of the run, and no other file changes. *)
Theorem trigger_appends_one_line fs :
  trigger_fired env (trace_of (main fs)) →
  fs_of (main fs) !! trigger_file =
    Some (default "" (fs !! trigger_file) +:+ trigger_line (now env)) ∧
  (∀ p, p ≠ trigger_file → fs_of (main fs) !! p = fs !! p) ∧
  count is_write (trace_of (main fs)) = 1 ∧
  ∃ stamp,
    stamp = "Retraining triggered at " +:+ isoformat (now env) ∧
    trigger_line (now env) = stamp +:+ String "010" "" ∧
    newlines stamp = 0.
Proof.
  intros [Hw _].
  apply (count_elem_of is_write) in Hw; [|done].
  rewrite count_main_cases in Hw by (auto with trace; done).
  rewrite main_files, count_main_cases by (auto with trace; done).
  destruct (scores_raises fs); [simpl in Hw; lia|].
  destruct (exceeds_threshold json_loads fs); [|simpl in Hw; lia].
  unfold with_trigger_line. split; [by rewrite lookup_insert_eq|].
  split; [by intros p Hp; rewrite lookup_insert_ne|].
  split; [done|].
  eexists. split; [done|]. split.
  - unfold trigger_line. by rewrite append_assoc.
  - by rewrite newlines_app, newlines_isoformat.
Qed.

(** When the external process fails, the error leaves [main] and the line
    already appended stays in the marker file. The error is the one of the
    process when its captured [stderr] decodes; otherwise it is the decode
    error raised while the message of line 143 is built. *)
Lemma failed_process_leaves_line fs :
  scores_raises fs = false →
  exceeds_threshold json_loads fs = true →
  (returncode (dvc_repro_training env) =? 0)%Z = false →
  result_of (main fs) =
    match bytes_decode (stderr (dvc_repro_training env)) with
    | Some _ =>
        Raised (CalledProcessError (returncode (dvc_repro_training env))
                  (stdout (dvc_repro_training env))
                  (stderr (dvc_repro_training env)))
    | None => Raised UnicodeDecodeError
    end ∧
  fs_of (main fs) = with_trigger_line (now env) fs.
Proof.
  intros Hs Hx Hrc. rewrite main_result, main_files, Hs, Hx. split; [|done].
  rewrite log_incorrect_predictions_run.
  unfold exceeds_threshold in Hx.
  destruct (fs !! incorrect_file) as [txt|]; [|done].
  destruct (json_loads txt) as [data|]; [|by destruct (text_decode txt)].
  destruct (py_len data) as [n|]; [|done].
  rewrite Hx. cbn [result_of]. unfold retraining_report. rewrite Hrc.
  by destruct (bytes_decode (stderr (dvc_repro_training env))).
Qed.

(** ** The order of the steps *)

Lemma ordered_nil lo hi : ordered lo hi [].
Proof. split; constructor. Qed.

Lemma ordered_app lo mid hi t1 t2 :
  lo ≤ mid ≤ hi → ordered lo mid t1 → ordered mid hi t2 → ordered lo hi (t1 ++ t2).
Proof.
  intros Hm [Hs1 Hb1] [Hs2 Hb2]. split.
  - apply StronglySorted_app. split_and!; [|done..].
    intros e1 e2 H1 H2.
    rewrite Forall_forall in Hb1, Hb2.
    specialize (Hb1 e1 H1). specialize (Hb2 e2 H2). simpl in *. lia.
  - apply Forall_app. split; eapply Forall_impl; eauto; simpl; intros; lia.
Qed.

Lemma ordered_same p t : forallb (λ e, phase e =? p) t = true → ordered p p t.
Proof.
  induction t as [|e t IH]; [intros; apply ordered_nil|].
  simpl. intros [He%Nat.eqb_eq Ht]%andb_true_iff.
  destruct (IH Ht) as [Hs Hb]. split.
  - constructor; [done|]. eapply Forall_impl; [exact Hb|]. simpl. intros; lia.
  - constructor; [lia|done].
Qed.

Lemma ordered_weaken lo hi lo' hi' t :
  lo' ≤ lo → hi ≤ hi' → ordered lo hi t → ordered lo' hi' t.
Proof.
  intros ?? [Hs Hb]. split; [done|].
  eapply Forall_impl; [exact Hb|]. simpl. intros; lia.
Qed.

Lemma results_events_phase d :
  forallb (λ e, phase e =? 3) (results_events d) = true.
Proof. apply forallb_bind. intros [k v]. by destruct (isinstance_int_float v). Qed.

Lemma scores_events_phase d :
  forallb (λ e, phase e =? 4) (scores_events d) = true.
Proof. apply forallb_bind. by intros [k v]. Qed.

Lemma prediction_events_phase l :
  forallb (λ e, phase e =? 5) (prediction_events l) = true.
Proof. apply forallb_bind. by intros [k v]. Qed.

Lemma retraining_report_phase p :
  forallb (λ e, phase e =? 8) (retraining_report bytes_decode p).2 = true.
Proof.
  unfold retraining_report.
  destruct (returncode p =? 0)%Z.
  - destruct (bytes_decode (stdout p)) as [out|]; [|done].
    destruct (bytes_decode (stderr p)) as [err|]; [|done].
    by destruct (negb (StdString.eqb (strip out) "")),
                (negb (StdString.eqb (strip err) "")).
  - by destruct (bytes_decode (stderr p)).
Qed.

Lemma log_results_ordered v fs : ordered 3 3 (trace_of (log_results v fs)).
Proof.
  apply ordered_same. rewrite log_results_run. cbn [trace_of forallb].
  destruct v as [| | | | | |[|x d]]; try done.
  apply results_events_phase.
Qed.

Lemma log_scores_ordered fs : ordered 4 4 (trace_of (log_scores fs)).
Proof.
  apply ordered_same. rewrite log_scores_run.
  destruct (fs !! scores_file) as [txt|]; [|done].
  destruct (json_loads txt) as [[]|]; try done; [|by destruct (text_decode txt)].
  cbn [trace_of]. rewrite forallb_app. by rewrite scores_events_phase.
Qed.

(** A piece of trace all of whose calls are in phase [p]. *)
Ltac ordered_const p :=
  apply (ordered_weaken p p); [lia|lia|apply ordered_same; try done].

Lemma log_incorrect_predictions_ordered fs :
  ordered 5 8 (trace_of (log_incorrect_predictions fs)).
Proof.
  rewrite log_incorrect_predictions_run.
  assert (∀ data n, ordered 5 5 (incorrect_opening ++ incorrect_logging data n)) as Hl.
  { intros data n. apply ordered_same. unfold incorrect_logging.
    rewrite !forallb_app. by rewrite prediction_events_phase. }
  destruct (fs !! incorrect_file) as [txt|]; [|by ordered_const 5].
  destruct (json_loads txt) as [data|];
    [|destruct (text_decode txt); by ordered_const 5].
  destruct (py_len data) as [n|]; [|by ordered_const 5].
  destruct (5 <? n); cbn [trace_of];
    [|by apply (ordered_weaken 5 5); [lia|lia|]].
  rewrite app_assoc.
  apply (ordered_app 5 5 8); [lia|done|].
  apply (ordered_app 5 5 8 [_]); [lia|by apply ordered_same|].
  apply (ordered_app 5 7 8); [lia| |].
  - apply (ordered_app 5 6 7 [_; _; _] [_]); [lia|..].
    + by ordered_const 6.
    + by ordered_const 7.
  - ordered_const 8. apply retraining_report_phase.
Qed.

Lemma main_ordered fs : ordered 0 9 (trace_of (main fs)).
Proof.
  rewrite main_run. cbv zeta.
  assert (ordered 0 4
            (main_prefix env ++ trace_of (log_results (evaluation_result env) fs) ++
             trace_of (log_scores fs))) as Hb.
  { apply (ordered_app 0 2 4); [lia| |].
    - apply (ordered_app 0 0 2 [_; _; _; _]); [lia|by apply ordered_same|].
      apply (ordered_app 0 1 2 [_; _; _; _; _; _] [_; _; _]); [lia|..].
      + by ordered_const 1.
      + by ordered_const 2.
    - apply (ordered_app 2 3 4); [lia|..].
      + apply (ordered_weaken 3 3); [lia|lia|apply log_results_ordered].
      + apply (ordered_weaken 4 4); [lia|lia|apply log_scores_ordered]. }
  destruct (result_of (log_scores fs)).
  - destruct (result_of (log_incorrect_predictions fs)); cbn [trace_of];
      (apply (ordered_app 0 4 9); [lia|done|]);
      (apply (ordered_app 4 8 9); [lia| |by ordered_const 9]);
      (apply (ordered_weaken 5 8); [lia|lia|apply log_incorrect_predictions_ordered]).
  - cbn [trace_of]. apply (ordered_app 0 4 9); [lia|done|].
    by ordered_const 9.
Qed.

Lemma in_step_order_lookup t i j e1 e2 :
  in_step_order t → t !! i = Some e1 → t !! j = Some e2 → i < j →
  phase e1 ≤ phase e2.
Proof.
  intros Hs H1 H2 Hij. rewrite <-(take_drop j t) in Hs.
  eapply (StronglySorted_app_1_elem_of _ _ _ e1 e2 Hs).
  - apply list_elem_of_lookup. exists i. by rewrite lookup_take_lt.
  - apply list_elem_of_lookup. exists 0. by rewrite lookup_drop, Nat.add_0_r.
Qed.

(** The trace of a run, step by step: the incorrect-predictions step is
    there exactly when the scores step has not raised, and the run ends
    with the end of the tracked run and, when [main] returns, line 150. *)
Lemma main_trace_steps fs :
  trace_of (main fs) =
  main_prefix env ++ trace_of (log_results (evaluation_result env) fs) ++
  trace_of (log_scores fs) ++
  (if scores_raises fs then []
   else trace_of (log_incorrect_predictions fs)) ++
  match result_of (main fs) with
  | Returned _ => [(57, end_run FINISHED); (150, logger INFO)]
  | Raised _ => [(57, end_run FAILED)]
  end.
Proof.
  rewrite main_result, main_run, log_scores_result. cbv zeta.
  destruct (scores_raises fs).
  - cbn [trace_of]. by rewrite <-!app_assoc.
  - destruct (result_of (log_incorrect_predictions fs)) as [[]|]; cbn [trace_of];
      by rewrite <-!app_assoc.
Qed.

Lemma log_incorrect_predictions_starts fs :
  ∃ rest,
    trace_of (log_incorrect_predictions fs) =
    (97, logger INFO) :: (100, path_exists incorrect_file) :: rest.
Proof.
  rewrite log_incorrect_predictions_run.
  destruct (fs !! incorrect_file) as [txt|]; [|cbn; eauto].
  destruct (json_loads txt) as [data|]; [|destruct (text_decode txt); cbn; eauto].
  destruct (py_len data) as [n|]; [|cbn; eauto].
  destruct (5 <? n); cbn; eauto.
Qed.

Lemma trigger_fired_lookup fs :
  trigger_fired env (trace_of (main fs)) →
  ∃ i j,
    trace_of (main fs) !! i = Some (120, write trigger_file (trigger_line (now env))) ∧
    trace_of (main fs) !! j = Some (125, subprocess_run dvc_argv).
Proof.
  intros [[i Hi]%list_elem_of_lookup [j Hj]%list_elem_of_lookup]. eauto.
Qed.

(** C6, amended. The calls of every run are those of the steps, one step
    after the other: the calls of lines 40-67 (configuration retrieval, then
    the set-up of tracking, which already logs the two configuration
    parameters of lines 60-61 to the tracking backend, then the evaluation
    invocation), the logging of the results, the branch over [scores.json],
    then the branch over [incorrect_predictions.json] with its threshold
    check, which is there exactly when the scores step has not raised, and
    the end of the tracked run. Each of these steps opens with calls of its
    own, so none is empty. No call of a step comes after a call of a later
    step, and when the trigger fires the write to the marker file is
    followed by the invocation of the external process, never preceded by
    it. *)
Theorem steps_in_order fs :
  trace_of (main fs) =
    main_prefix env ++
    trace_of (log_results (evaluation_result env) fs) ++
    trace_of (log_scores fs) ++
    match result_of (log_scores fs) with
    | Returned _ => trace_of (log_incorrect_predictions fs)
    | Raised _ => []
    end ++
    match result_of (main fs) with
    | Returned _ => [(57, end_run FINISHED); (150, logger INFO)]
    | Raised _ => [(57, end_run FAILED)]
    end ∧
  (∃ rest,
     trace_of (log_results (evaluation_result env) fs) = (69, logger INFO) :: rest) ∧
  (∃ rest,
     trace_of (log_scores fs) =
     (82, logger INFO) :: (85, path_exists scores_file) :: rest) ∧
  (∃ rest,
     trace_of (log_incorrect_predictions fs) =
     (97, logger INFO) :: (100, path_exists incorrect_file) :: rest) ∧
  (probed incorrect_file (trace_of (main fs)) = true ↔
   result_of (log_scores fs) = Returned ()) ∧
  in_step_order (trace_of (main fs)) ∧
  (∀ i j text argv,
     trace_of (main fs) !! i = Some (120, write trigger_file text) →
     trace_of (main fs) !! j = Some (125, subprocess_run argv) →
     i < j) ∧
  (trigger_fired env (trace_of (main fs)) →
   ∃ i j,
     i < j ∧
     trace_of (main fs) !! i =
       Some (120, write trigger_file (trigger_line (now env))) ∧
     trace_of (main fs) !! j = Some (125, subprocess_run dvc_argv)).
Proof.
  destruct (main_ordered fs) as [Hs _].
  assert (∀ i j text argv,
            trace_of (main fs) !! i = Some (120, write trigger_file text) →
            trace_of (main fs) !! j = Some (125, subprocess_run argv) →
            i < j) as Hbefore.
  { intros i j text argv H1 H2.
    destruct (decide (i < j)) as [|Hge]; [done|].
    assert (j ≠ i) by (intros ->; congruence).
    pose proof (in_step_order_lookup _ j i _ _ Hs H2 H1 ltac:(lia)) as Hph.
    by vm_compute in Hph; lia. }
  split_and!.
  - rewrite main_trace_steps at 1. rewrite log_scores_result.
    by destruct (scores_raises fs).
  - rewrite log_results_run. cbn [trace_of]. eauto.
  - destruct (log_scores_starts fs) as [rest ->]. eauto.
  - apply log_incorrect_predictions_starts.
  - rewrite probed_incorrect_file, log_scores_result.
    destruct (scores_raises fs); split; done.
  - done.
  - done.
  - intros (i & j & Hi & Hj)%trigger_fired_lookup.
    exists i, j. split; [by eapply Hbefore|done].
Qed.


(** ** Further properties of [main] and of the script *)

Local Abbreviation stage_script :=
  (stage_script json_loads text_decode bytes_decode env).

(** An observation all of whose events lie in one phase counts nothing in
    a piece of trace that lies in other phases. *)
Lemma count_ordered_zero f p lo hi t :
  (∀ e, f e = true → phase e = p) →
  ordered lo hi t → p < lo ∨ hi < p → count f t = 0.
Proof.
  intros Hf [_ Hb] Hp. induction t as [|e t IH]; [done|].
  apply Forall_cons in Hb as [He Hb]. rewrite count_cons, (IH Hb).
  destruct (f e) eqn:Hfe; [|done].
  apply Hf in Hfe. lia.
Qed.

Lemma tracking_log_phase l e :
  is_tracking_log_at l e = true → phase e = step_index (step_of_line l).
Proof.
  destruct e as [l' c]. unfold is_tracking_log_at, phase, step_of. simpl.
  destruct c; try done; by intros ->%Nat.eqb_eq.
Qed.

Lemma main_prefix_ordered : ordered 0 2 (main_prefix env).
Proof.
  unfold main_prefix.
  apply (ordered_app 0 0 2 [_; _; _; _]); [lia|by apply ordered_same|].
  apply (ordered_app 0 1 2 [_; _; _; _; _; _] [_; _; _]); [lia|..].
  - by ordered_const 1.
  - by ordered_const 2.
Qed.

Lemma main_tail_ordered (r : result unit) :
  ordered 9 9
    match r with
    | Returned _ => [(57, end_run FINISHED); (150, logger INFO)]
    | Raised _ => [(57, end_run FAILED)]
    end.
Proof. destruct r; by apply ordered_same. Qed.

Lemma filter_nil_of_count f t : count f t = 0 → List.filter f t = [].
Proof. unfold count. by intros ?%length_zero_iff_nil. Qed.

Lemma filter_ordered_nil f p lo hi t :
  (∀ e, f e = true → phase e = p) →
  ordered lo hi t → p < lo ∨ hi < p → List.filter f t = [].
Proof. intros. by eapply filter_nil_of_count, count_ordered_zero. Qed.

(** The calls of one of the three logging steps, picked out of a whole run,
    are those picked out of the trace of that step. *)
Lemma filter_in_results f fs :
  (∀ e, f e = true → phase e = 3) →
  List.filter f (trace_of (main fs)) =
  List.filter f (trace_of (log_results (evaluation_result env) fs)).
Proof.
  intros Hf. rewrite main_trace_steps, !List.filter_app.
  rewrite (filter_ordered_nil f 3 0 2 (main_prefix env))
    by (auto using main_prefix_ordered; lia).
  rewrite (filter_ordered_nil f 3 4 4 (trace_of (log_scores fs)))
    by (auto using log_scores_ordered; lia).
  rewrite (filter_ordered_nil f 3 9 9 (match result_of (main fs) with
                                        | Returned _ => _ | Raised _ => _ end))
    by (auto using main_tail_ordered; lia).
  destruct (scores_raises fs); [by rewrite !app_nil_r|].
  rewrite (filter_ordered_nil f 3 5 8 (trace_of (log_incorrect_predictions fs)))
    by (auto using log_incorrect_predictions_ordered; lia).
  by rewrite !app_nil_r.
Qed.

Lemma filter_in_scores f fs :
  (∀ e, f e = true → phase e = 4) →
  List.filter f (trace_of (main fs)) = List.filter f (trace_of (log_scores fs)).
Proof.
  intros Hf. rewrite main_trace_steps, !List.filter_app.
  rewrite (filter_ordered_nil f 4 0 2 (main_prefix env))
    by (auto using main_prefix_ordered; lia).
  rewrite (filter_ordered_nil f 4 3 3 (trace_of (log_results _ fs)))
    by (auto using log_results_ordered; lia).
  rewrite (filter_ordered_nil f 4 9 9 (match result_of (main fs) with
                                        | Returned _ => _ | Raised _ => _ end))
    by (auto using main_tail_ordered; lia).
  destruct (scores_raises fs); [by rewrite !app_nil_r|].
  rewrite (filter_ordered_nil f 4 5 8 (trace_of (log_incorrect_predictions fs)))
    by (auto using log_incorrect_predictions_ordered; lia).
  by rewrite !app_nil_r.
Qed.

Lemma filter_in_incorrect f fs :
  (∀ e, f e = true → phase e = 5) →
  List.filter f (trace_of (main fs)) =
  if scores_raises fs then []
  else List.filter f (trace_of (log_incorrect_predictions fs)).
Proof.
  intros Hf. rewrite main_trace_steps, !List.filter_app.
  rewrite (filter_ordered_nil f 5 0 2 (main_prefix env))
    by (auto using main_prefix_ordered; lia).
  rewrite (filter_ordered_nil f 5 3 3 (trace_of (log_results _ fs)))
    by (auto using log_results_ordered; lia).
  rewrite (filter_ordered_nil f 5 4 4 (trace_of (log_scores fs)))
    by (auto using log_scores_ordered; lia).
  rewrite (filter_ordered_nil f 5 9 9 (match result_of (main fs) with
                                        | Returned _ => _ | Raised _ => _ end))
    by (auto using main_tail_ordered; lia).
  destruct (scores_raises fs); by rewrite ?app_nil_r.
Qed.

Lemma filter_bind {X} f (g : X → list event) (h : X → list event) (l : list X) :
  (∀ x, List.filter f (g x) = h x) → List.filter f (l ≫= g) = l ≫= h.
Proof.
  intros Hg. induction l as [|x l IH]; [done|].
  change ((x :: l) ≫= g) with (g x ++ (l ≫= g)).
  change ((x :: l) ≫= h) with (h x ++ (l ≫= h)).
  by rewrite List.filter_app, Hg, IH.
Qed.

Lemma bind_singleton_map {X Y} (g : X → Y) (l : list X) :
  l ≫= (λ x, [g x]) = g <$> l.
Proof.
  induction l as [|x l IH]; [done|].
  change ((x :: l) ≫= (λ x, [g x])) with ([g x] ++ (l ≫= (λ x, [g x]))).
  by rewrite IH.
Qed.

Lemma is_result_log_phase e : is_result_log e = true → phase e = 3.
Proof.
  unfold is_result_log. intros [H|H]%orb_true_iff;
    by apply tracking_log_phase in H.
Qed.

(** X1. The calls that log the evaluation results, picked out of the trace
    of a run, are exactly one call per item of the returned dict, in the
    order of the dict: nothing is logged twice, nothing is left out, and an
    empty dict logs nothing. *)
Theorem results_logged_in_order fs d :
  evaluation_result env = VDict d →
  List.filter is_result_log (trace_of (main fs)) = result_log <$> d.
Proof.
  intros Hr. rewrite filter_in_results by apply is_result_log_phase.
  rewrite log_results_run, Hr. cbn [trace_of].
  destruct d as [|x d]; [done|].
  change (List.filter is_result_log ((69, logger INFO) :: results_events (x :: d)))
    with (List.filter is_result_log (results_events (x :: d))).
  rewrite <-bind_singleton_map. apply filter_bind.
  intros [k v]. unfold result_log. simpl. by destruct (isinstance_int_float v).
Qed.

(** X2. In a run that gets past the scores step after parsing
    [scores.json] to a dict, the metric calls of line 90, picked out of the
    trace, are exactly one per item, in the order of the dict, each with the
    value as the file gives it: line 90 makes no test on the type of the
    value. *)
Theorem scores_logged_in_order fs txt d :
  fs !! scores_file = Some txt →
  json_loads txt = Some (VDict d) →
  probed incorrect_file (trace_of (main fs)) = true →
  List.filter (is_tracking_log_at 90) (trace_of (main fs)) =
    (λ kv, (90, log_metric kv.1 kv.2)) <$> d.
Proof.
  intros Hs Hj _.
  rewrite filter_in_scores by apply tracking_log_phase.
  rewrite log_scores_run, Hs, Hj. cbn [trace_of].
  rewrite List.filter_app.
  change (List.filter (is_tracking_log_at 90)
            [(82, logger INFO); (85, path_exists scores_file);
             (87, open_file scores_file "r"); (88, json_load scores_file)])
    with (@nil event).
  rewrite app_nil_l, <-bind_singleton_map. apply filter_bind. by intros [k v].
Qed.

Lemma prediction_key_inj i j : prediction_key i = prediction_key j → i = j.
Proof.
  unfold prediction_key. intros H%(inj (String.app _)). by apply (inj pretty).
Qed.

Lemma filter_prediction_events l :
  List.filter (is_tracking_log_at 110) (prediction_events l) =
  imap (λ i pred, (110, log_param (prediction_key i) (Raw pred))) l.
Proof.
  unfold prediction_events, enumerate.
  rewrite (filter_bind _ _
             (λ ip, [(110, log_param (prediction_key ip.1) (Raw ip.2))]))
    by (by intros [i p]).
  rewrite (bind_singleton_map
             (λ ip : nat * value, (110, log_param (prediction_key ip.1) (Raw ip.2)))).
  by rewrite fmap_imap.
Qed.

Lemma filter_retraining_report f p :
  (∀ e, f e = true → phase e = 5) →
  List.filter f (retraining_report bytes_decode p).2 = [].
Proof.
  intros Hf. apply (filter_ordered_nil f 5 8 8); [done| |lia].
  apply ordered_same, retraining_report_phase.
Qed.

Lemma filter_110_incorrect_logging data n :
  List.filter (is_tracking_log_at 110) (incorrect_logging data n) =
  imap (λ i pred, (110, log_param (prediction_key i) (Raw pred))) (py_iter data).
Proof.
  unfold incorrect_logging. rewrite List.filter_app.
  exact (filter_prediction_events (py_iter data)).
Qed.

Lemma filter_105_incorrect_logging data n :
  List.filter (is_tracking_log_at 105) (incorrect_logging data n) =
  [(105, log_metric "num_incorrect_predictions" (VInt (Z.of_nat n)))].
Proof.
  unfold incorrect_logging, prediction_events. rewrite List.filter_app.
  rewrite (filter_bind _ _ (λ _, [])) by (by intros [i p]).
  induction (enumerate (py_iter data)) as [|x l IH]; [reflexivity|]. exact IH.
Qed.

(** The tracking calls of a line of the step, in the trace of the step. *)
Lemma filter_log_incorrect_predictions l fs txt data n :
  step_of_line l = IncorrectBranch →
  fs !! incorrect_file = Some txt →
  json_loads txt = Some data →
  py_len data = Some n →
  List.filter (is_tracking_log_at l) (trace_of (log_incorrect_predictions fs)) =
  List.filter (is_tracking_log_at l) (incorrect_logging data n).
Proof.
  intros Hl Hi Hj Hn.
  assert (∀ e, is_tracking_log_at l e = true → phase e = 5) as Hf
    by (intros e He%tracking_log_phase; by rewrite He, Hl).
  rewrite log_incorrect_predictions_run, Hi, Hj, Hn.
  destruct (5 <? n); cbn [trace_of]; rewrite !List.filter_app; [|done].
  change ((115, logger INFO) :: retraining_events (now env) ++
          (retraining_report bytes_decode (dvc_repro_training env)).2)
    with ([(115, logger INFO)] ++ retraining_events (now env) ++
          (retraining_report bytes_decode (dvc_repro_training env)).2).
  rewrite !List.filter_app, filter_retraining_report by done.
  simpl. by rewrite app_nil_r.
Qed.

(** X3. In a run that parses [incorrect_predictions.json] to a collection of
    [n] entries, the calls of line 110, picked out of the trace, are exactly
    one parameter per entry, in order, the entry at [i] under the name
    [incorrect_prediction_i]; the metric of line 105 is logged once; and
    different indices give different names. *)
Theorem one_parameter_per_entry fs txt data n :
  parsed incorrect_file (trace_of (main fs)) = true →
  fs !! incorrect_file = Some txt →
  json_loads txt = Some data →
  py_len data = Some n →
  List.filter (is_tracking_log_at 110) (trace_of (main fs)) =
    imap (λ i pred, (110, log_param (prediction_key i) (Raw pred))) (py_iter data) ∧
  List.filter (is_tracking_log_at 105) (trace_of (main fs)) =
    [(105, log_metric "num_incorrect_predictions" (VInt (Z.of_nat n)))] ∧
  count (is_tracking_log_at 110) (trace_of (main fs)) = n ∧
  ∀ i j, prediction_key i = prediction_key j → i = j.
Proof.
  intros Hp%parsed_incorrect_file Hf Hj Hn.
  assert (List.filter (is_tracking_log_at 110) (trace_of (main fs)) =
          imap (λ i pred, (110, log_param (prediction_key i) (Raw pred)))
               (py_iter data)) as H110.
  { rewrite filter_in_incorrect, Hp by apply tracking_log_phase.
    rewrite (filter_log_incorrect_predictions _ fs txt data n) by done.
    apply filter_110_incorrect_logging. }
  split; [done|]. split; [|split; [|apply prediction_key_inj]].
  - rewrite filter_in_incorrect, Hp by apply tracking_log_phase.
    rewrite (filter_log_incorrect_predictions _ fs txt data n) by done.
    apply filter_105_incorrect_logging.
  - unfold count. rewrite H110, length_imap. by apply py_iter_length.
Qed.


Lemma ignores_is_end_run s : ignores_reporting (is_end_run s).
Proof. by intros [l []]. Qed.


Lemma count_end_run s fs :
  count (is_end_run s) (trace_of (main fs)) =
  match result_of (main fs), s with
  | Returned _, FINISHED | Raised _, FAILED => 1
  | _, _ => 0
  end.
Proof.
  rewrite main_trace_steps, !count_app.
  rewrite (count_reports _ (trace_of (log_results _ _)))
    by auto using ignores_is_end_run with trace.
  rewrite count_log_scores by (auto using ignores_is_end_run; by destruct s).
  assert (count (is_end_run s)
            (if scores_raises fs then []
             else trace_of (log_incorrect_predictions fs)) = 0) as ->.
  { destruct (scores_raises fs); [done|].
    rewrite count_log_incorrect_predictions
      by (auto using ignores_is_end_run; by destruct s).
    by destruct (exceeds_threshold json_loads fs), s. }
  by destruct (result_of (main fs)), s.
Qed.


Lemma py_len_none data :
  py_len data = None ↔
  match data with
  | VNone | VBool _ | VInt _ | VFloat _ => True
  | _ => False
  end.
Proof. by destruct data. Qed.

(** X5. When a run gets to the incorrect-predictions step and the file
    parses to a value that has no length ([null], a boolean or a number),
    [len] raises [TypeError], which is not caught: it leaves [main], nothing
    of the file is logged, nothing is written, no command is invoked, the
    file system is as it was and the tracked run is ended [FAILED]. *)
Theorem value_without_length_raises fs txt data :
  probed incorrect_file (trace_of (main fs)) = true →
  fs !! incorrect_file = Some txt →
  json_loads txt = Some data →
  py_len data = None →
  main fs = Run (Raised TypeError) fs (trace_of (main fs)) ∧
  List.filter (is_tracking_log_at 105) (trace_of (main fs)) = [] ∧
  List.filter (is_tracking_log_at 110) (trace_of (main fs)) = [] ∧
  appended (trace_of (main fs)) = false ∧
  invoked (trace_of (main fs)) = false ∧
  count (is_end_run FAILED) (trace_of (main fs)) = 1.
Proof.
  intros Hp Hi Hj Hn. rewrite probed_incorrect_file in Hp.
  apply negb_true_iff in Hp.
  assert (exceeds_threshold json_loads fs = false) as Hx
    by (unfold exceeds_threshold; by rewrite Hi, Hj, Hn).
  assert (result_of (main fs) = Raised TypeError) as Hr
    by (by rewrite main_result, Hp, log_incorrect_predictions_run, Hi, Hj, Hn).
  split_and!.
  - apply run_eq; [done|]. by rewrite main_files, Hp, Hx.
  - rewrite filter_in_incorrect, Hp by apply tracking_log_phase.
    by rewrite log_incorrect_predictions_run, Hi, Hj, Hn.
  - rewrite filter_in_incorrect, Hp by apply tracking_log_phase.
    by rewrite log_incorrect_predictions_run, Hi, Hj, Hn.
  - unfold appended.
    by rewrite count_main_cases, Hp, Hx by (auto with trace; done).
  - unfold invoked.
    by rewrite count_main_cases, Hp, Hx by (auto with trace; done).
  - by rewrite count_end_run, Hr.
Qed.

(** X6. When [scores.json] parses to a value that is not a dict (a list, a
    string, a number, [null]), [.items()] raises [AttributeError], which the
    [except] clause of line 92 does not catch: it leaves [main], the run
    never gets to the incorrect-predictions step, no metric of the file is
    logged, nothing is written, no command is invoked, the file system is as
    it was and the tracked run is ended [FAILED]. *)
Theorem scores_without_items_raises fs txt v :
  fs !! scores_file = Some txt →
  json_loads txt = Some v →
  isinstance_dict v = false →
  main fs = Run (Raised AttributeError) fs (trace_of (main fs)) ∧
  probed incorrect_file (trace_of (main fs)) = false ∧
  List.filter (is_tracking_log_at 90) (trace_of (main fs)) = [] ∧
  appended (trace_of (main fs)) = false ∧
  invoked (trace_of (main fs)) = false ∧
  count (is_end_run FAILED) (trace_of (main fs)) = 1.
Proof.
  intros Hs Hj Hv.
  assert (scores_not_a_dict json_loads fs = true) as Hnd
    by (unfold scores_not_a_dict; rewrite Hs, Hj; by destruct v).
  destruct (scores_raises_not_a_dict fs Hnd) as [Hd He].
  assert (result_of (main fs) = Raised AttributeError) as Hr
    by (by rewrite main_result, Hd, He).
  split_and!.
  - apply run_eq; [done|]. by rewrite main_files, Hd.
  - by rewrite probed_incorrect_file, Hd.
  - rewrite filter_in_scores by apply tracking_log_phase.
    rewrite log_scores_run, Hs, Hj. by destruct v.
  - unfold appended. by rewrite count_main_cases, Hd by (auto with trace; done).
  - unfold invoked. by rewrite count_main_cases, Hd by (auto with trace; done).
  - by rewrite count_end_run, Hr.
Qed.

Lemma footprint_of_reporting t :
  forallb is_reporting t = true → forallb within_footprint t = true.
Proof.
  induction t as [|[l c] t IH]; [done|].
  simpl. intros [Hc Ht]%andb_true_iff. rewrite (IH Ht), andb_true_r.
  by destruct c.
Qed.

(** X8. Through the whole of a run, on every path, the calls of [main]
    test, open for reading and parse no file but [scores.json] and
    [incorrect_predictions.json], open for appending and write no file but
    [retrain_trigger.txt], and run no command but [dvc repro training]. *)
Theorem main_footprint fs :
  forallb within_footprint (trace_of (main fs)) = true.
Proof.
  rewrite main_trace_steps, !forallb_app.
  rewrite (footprint_of_reporting (trace_of (log_results _ _)))
    by apply log_results_report.
  assert (forallb within_footprint (trace_of (log_scores fs)) = true) as ->.
  { rewrite log_scores_run.
    destruct (fs !! scores_file) as [txt|]; [|done].
    destruct (json_loads txt) as [[]|]; try done; [|by destruct (text_decode txt)].
    cbn [trace_of]. rewrite forallb_app.
    by rewrite (footprint_of_reporting (scores_events _))
      by apply scores_events_report. }
  assert (forallb within_footprint
            (if scores_raises fs then []
             else trace_of (log_incorrect_predictions fs)) = true) as ->.
  { destruct (scores_raises fs); [done|].
    rewrite log_incorrect_predictions_run.
    destruct (fs !! incorrect_file) as [txt|]; [|done].
    destruct (json_loads txt) as [data|]; [|by destruct (text_decode txt)].
    destruct (py_len data) as [n|]; [|done].
    unfold incorrect_logging.
    destruct (5 <? n); cbn [trace_of]; rewrite !forallb_app;
      rewrite (footprint_of_reporting (prediction_events _))
        by apply prediction_events_report; [|done].
    change ((115, logger INFO) :: retraining_events (now env) ++
            (retraining_report bytes_decode (dvc_repro_training env)).2)
      with ([(115, logger INFO)] ++ retraining_events (now env) ++
            (retraining_report bytes_decode (dvc_repro_training env)).2).
    rewrite !forallb_app.
    by rewrite (footprint_of_reporting (retraining_report _ _).2)
      by apply retraining_report_report. }
  by destruct (result_of (main fs)).
Qed.

(** X9. The script (lines 152-160) hides nothing of [main]: it ends as
    [main] ends, with the same exception when [main] raises, and leaves the
    file system [main] leaves. Around the calls of [main] it logs the start,
    and then either the completion, exactly when [main] returns, or the
    exception, exactly when [main] raises. *)
Theorem script_propagates fs :
  result_of (stage_script fs) = result_of (main fs) ∧
  fs_of (stage_script fs) = fs_of (main fs) ∧
  trace_of (stage_script fs) =
    (154, logger INFO) :: trace_of (main fs) ++
    [match result_of (main fs) with
     | Returned _ => (157, logger INFO)
     | Raised _ => (159, logger ERROR)
     end].
Proof.
  unfold EvaluationPipeline.stage_script.
  destruct (main fs) as [r fs' t] eqn:Hm. cbn [result_of fs_of trace_of].
  destruct r as [[]|e].
  - erewrite try_returned; [|
      erewrite bind_step by reflexivity;
      erewrite bind_step by exact Hm;
      reflexivity].
    by norm_run.
  - erewrite try_raised; [|
      erewrite bind_step by reflexivity;
      erewrite bind_stop by exact Hm;
      reflexivity].
    cbv beta iota. erewrite bind_step by reflexivity.
    norm_run. simpl. by rewrite <-?app_assoc, ?app_nil_r.
Qed.

Lemma incorrect_logged_ordered data n :
  ordered 5 5 (incorrect_opening ++ incorrect_logging data n).
Proof.
  apply ordered_same. unfold incorrect_logging.
  rewrite !forallb_app. by rewrite prediction_events_phase.
Qed.

Lemma retraining_events_ordered t : ordered 6 7 (retraining_events t).
Proof.
  unfold retraining_events.
  apply (ordered_app 6 6 7 [_; _; _] [_]); [lia|by apply ordered_same|].
  by ordered_const 7.
Qed.

(** The calls of the report of the retraining step, counted over a run that
    gets to the retraining step. *)
Lemma count_in_report f fs :
  (∀ e, f e = true → phase e = 8) →
  scores_raises fs = false →
  exceeds_threshold json_loads fs = true →
  count f (trace_of (main fs)) =
  count f (retraining_report bytes_decode (dvc_repro_training env)).2.
Proof.
  intros Hf Hs Hx. rewrite main_trace_steps, Hs, !count_app.
  rewrite (count_ordered_zero f 8 0 2 (main_prefix env))
    by (auto using main_prefix_ordered; lia).
  rewrite (count_ordered_zero f 8 3 3 (trace_of (log_results _ fs)))
    by (auto using log_results_ordered; lia).
  rewrite (count_ordered_zero f 8 4 4 (trace_of (log_scores fs)))
    by (auto using log_scores_ordered; lia).
  rewrite (count_ordered_zero f 8 9 9 (match result_of (main fs) with
                                       | Returned _ => _ | Raised _ => _ end))
    by (auto using main_tail_ordered; lia).
  rewrite log_incorrect_predictions_run. unfold exceeds_threshold in Hx.
  destruct (fs !! incorrect_file) as [txt|]; [|done].
  destruct (json_loads txt) as [data|]; [|by destruct (text_decode txt)].
  destruct (py_len data) as [n|]; [|done].
  rewrite Hx. cbn [trace_of].
  change ((115, logger INFO) :: retraining_events (now env) ++
          (retraining_report bytes_decode (dvc_repro_training env)).2)
    with ([(115, logger INFO)] ++ retraining_events (now env) ++
          (retraining_report bytes_decode (dvc_repro_training env)).2).
  rewrite (app_assoc incorrect_opening),
    (count_app f (incorrect_opening ++ incorrect_logging data n)),
    (count_app f [(115, logger INFO)]), (count_app f (retraining_events (now env))).
  rewrite (count_ordered_zero f 8 5 5 (incorrect_opening ++ incorrect_logging data n))
    by (auto using incorrect_logged_ordered; lia).
  rewrite (count_ordered_zero f 8 5 5 [(115, logger INFO)])
    by (first [done | by apply ordered_same | lia]).
  rewrite (count_ordered_zero f 8 6 7 (retraining_events (now env)))
    by (auto using retraining_events_ordered; lia).
  lia.
Qed.

Lemma logger_at_phase l e :
  is_logger_at l e = true → phase e = step_index (step_of_line l).
Proof.
  destruct e as [l' c]. unfold is_logger_at, phase, step_of. simpl.
  destruct c; try done; by intros ->%Nat.eqb_eq.
Qed.

(** X10. When the threshold is exceeded and the external process exits
    with status 0 and output that decodes, [main] returns normally with the
    line appended and the tracked run ended [FINISHED]. It reports the
    output of the process at line 137 exactly when that output is not blank,
    its error output at line 139 exactly when that is not blank, and the
    success at line 141. *)
Theorem retraining_succeeds fs out err :
  probed incorrect_file (trace_of (main fs)) = true →
  exceeds_threshold json_loads fs = true →
  returncode (dvc_repro_training env) = 0%Z →
  bytes_decode (stdout (dvc_repro_training env)) = Some out →
  bytes_decode (stderr (dvc_repro_training env)) = Some err →
  main fs = Run (Returned ()) (with_trigger_line (now env) fs) (trace_of (main fs)) ∧
  count (is_logger_at 137) (trace_of (main fs)) =
    (if StdString.eqb (strip out) "" then 0 else 1) ∧
  count (is_logger_at 139) (trace_of (main fs)) =
    (if StdString.eqb (strip err) "" then 0 else 1) ∧
  count (is_logger_at 141) (trace_of (main fs)) = 1 ∧
  count (is_end_run FINISHED) (trace_of (main fs)) = 1.
Proof.
  intros Hp Hx Hrc Hout Herr. rewrite probed_incorrect_file in Hp.
  apply negb_true_iff in Hp.
  assert (retraining_report bytes_decode (dvc_repro_training env) =
          (Returned (),
           (if negb (StdString.eqb (strip out) "") then [(137, logger INFO)] else []) ++
           (if negb (StdString.eqb (strip err) "") then [(139, logger WARNING)] else []) ++
           [(141, logger INFO)])) as Hrep
    by (unfold retraining_report; by rewrite Hrc, Hout, Herr).
  assert (result_of (main fs) = Returned ()) as Hr.
  { rewrite main_result, Hp, log_incorrect_predictions_run.
    unfold exceeds_threshold in Hx.
    destruct (fs !! incorrect_file) as [txt|]; [|done].
    destruct (json_loads txt) as [data|]; [|by destruct (text_decode txt)].
    destruct (py_len data) as [n|]; [|done].
    by rewrite Hx, Hrep. }
  split_and!.
  - apply run_eq; [done|]. by rewrite main_files, Hp, Hx.
  - rewrite count_in_report, Hrep by (done || apply logger_at_phase).
    by destruct (StdString.eqb (strip out) ""), (StdString.eqb (strip err) "").
  - rewrite count_in_report, Hrep by (done || apply logger_at_phase).
    by destruct (StdString.eqb (strip out) ""), (StdString.eqb (strip err) "").
  - rewrite count_in_report, Hrep by (done || apply logger_at_phase).
    by destruct (StdString.eqb (strip out) ""), (StdString.eqb (strip err) "").
  - by rewrite count_end_run, Hr.
Qed.

(** X11. When the threshold is exceeded and the external process exits
    with status 0 but its output or its error output is not UTF-8, the
    decoding of lines 134-135 raises [UnicodeDecodeError], which no [except]
    clause matches: it leaves [main] although the process succeeded. The
    line was appended, the command was invoked, the success of line 141 is
    not reported and the tracked run is ended [FAILED]. *)
Theorem undecodable_output_raises fs :
  probed incorrect_file (trace_of (main fs)) = true →
  exceeds_threshold json_loads fs = true →
  returncode (dvc_repro_training env) = 0%Z →
  bytes_decode (stdout (dvc_repro_training env)) = None ∨
  bytes_decode (stderr (dvc_repro_training env)) = None →
  main fs =
    Run (Raised UnicodeDecodeError) (with_trigger_line (now env) fs)
        (trace_of (main fs)) ∧
  invoked (trace_of (main fs)) = true ∧
  count (is_logger_at 141) (trace_of (main fs)) = 0 ∧
  count (is_end_run FAILED) (trace_of (main fs)) = 1.
Proof.
  intros Hp Hx Hrc Hdec. rewrite probed_incorrect_file in Hp.
  apply negb_true_iff in Hp.
  assert (retraining_report bytes_decode (dvc_repro_training env) =
          (Raised UnicodeDecodeError, [])) as Hrep.
  { unfold retraining_report. rewrite Hrc. simpl.
    destruct Hdec as [-> | ->]; [done|].
    by destruct (bytes_decode (stdout (dvc_repro_training env))). }
  assert (result_of (main fs) = Raised UnicodeDecodeError) as Hr.
  { rewrite main_result, Hp, log_incorrect_predictions_run.
    unfold exceeds_threshold in Hx.
    destruct (fs !! incorrect_file) as [txt|]; [|done].
    destruct (json_loads txt) as [data|]; [|by destruct (text_decode txt)].
    destruct (py_len data) as [n|]; [|done].
    by rewrite Hx, Hrep. }
  split_and!.
  - apply run_eq; [done|]. by rewrite main_files, Hp, Hx.
  - unfold invoked.
    by rewrite count_main_cases, Hp, Hx by (auto with trace; done).
  - by rewrite count_in_report, Hrep by (done || apply logger_at_phase).
  - by rewrite count_end_run, Hr.
Qed.

(** X12. When the threshold is exceeded and the external process exits
    with a status other than 0 and error output that decodes, the
    [CalledProcessError] of the process, with that status, leaves [main]:
    the line was appended and stays, the failure is reported once at line
    143, the success of line 141 is not, and the tracked run is ended
    [FAILED]. *)
Theorem failed_process_reraised fs msg :
  probed incorrect_file (trace_of (main fs)) = true →
  exceeds_threshold json_loads fs = true →
  returncode (dvc_repro_training env) ≠ 0%Z →
  bytes_decode (stderr (dvc_repro_training env)) = Some msg →
  main fs =
    Run (Raised (CalledProcessError (returncode (dvc_repro_training env))
                   (stdout (dvc_repro_training env))
                   (stderr (dvc_repro_training env))))
        (with_trigger_line (now env) fs) (trace_of (main fs)) ∧
  count (is_logger_at 143) (trace_of (main fs)) = 1 ∧
  count (is_logger_at 141) (trace_of (main fs)) = 0 ∧
  count (is_end_run FAILED) (trace_of (main fs)) = 1.
Proof.
  intros Hp Hx Hrc%Z.eqb_neq Herr. rewrite probed_incorrect_file in Hp.
  apply negb_true_iff in Hp.
  assert (retraining_report bytes_decode (dvc_repro_training env) =
          (Raised (CalledProcessError (returncode (dvc_repro_training env))
                     (stdout (dvc_repro_training env))
                     (stderr (dvc_repro_training env))),
           [(143, logger ERROR)])) as Hrep
    by (unfold retraining_report; by rewrite Hrc, Herr).
  assert (result_of (main fs) =
          Raised (CalledProcessError (returncode (dvc_repro_training env))
                    (stdout (dvc_repro_training env))
                    (stderr (dvc_repro_training env)))) as Hr.
  { rewrite main_result, Hp, log_incorrect_predictions_run.
    unfold exceeds_threshold in Hx.
    destruct (fs !! incorrect_file) as [txt|]; [|done].
    destruct (json_loads txt) as [data|]; [|by destruct (text_decode txt)].
    destruct (py_len data) as [n|]; [|done].
    by rewrite Hx, Hrep. }
  split_and!.
  - apply run_eq; [done|]. by rewrite main_files, Hp, Hx.
  - by rewrite count_in_report, Hrep by (done || apply logger_at_phase).
  - by rewrite count_in_report, Hrep by (done || apply logger_at_phase).
  - by rewrite count_end_run, Hr.
Qed.

End Properties.

(** ** The claims on example runs *)

Section Runs.
Import EvaluationPipeline Examples.

(** The examples run in a locale whose encoding is UTF-8: reading a file
    decodes as [bytes.decode] does. *)
Local Abbreviation run_main := (main json_loads text_decode bytes_decode).

(** C1, as stated, fails: [incorrect_predictions.json] exists and parses to
    a collection of 6 entries, yet nothing is appended and nothing is
    invoked, because [scores.json] parsed to a list and line 89 raised. *)
Lemma trigger_not_reached :
  fs_scores_array !! incorrect_file = Some six_incorrect ∧
  json_loads six_incorrect = Some six ∧
  py_len six = Some 6 ∧
  5 < 6 ∧
  appended (trace_of (run_main env_ok fs_scores_array)) = false ∧
  invoked (trace_of (run_main env_ok fs_scores_array)) = false ∧
  result_of (run_main env_ok fs_scores_array) = Raised AttributeError.
Proof. split_and!; first [lia | vm_compute; reflexivity]. Qed.

Lemma retraining_trigger_iff_threshold_witness :
  parsed incorrect_file (trace_of (run_main env_ok fs_six)) = true ∧
  fs_six !! incorrect_file = Some six_incorrect ∧
  json_loads six_incorrect = Some six ∧
  py_len six = Some 6 ∧
  (trigger_fired env_ok (trace_of (run_main env_ok fs_six)) ↔ 5 < 6) ∧
  (6 ≤ 5 →
   appended (trace_of (run_main env_ok fs_six)) = false ∧
   invoked (trace_of (run_main env_ok fs_six)) = false).
Proof.
  assert (parsed incorrect_file (trace_of (run_main env_ok fs_six)) = true) as H1
    by (vm_compute; reflexivity).
  assert (fs_six !! incorrect_file = Some six_incorrect) as H2
    by (vm_compute; reflexivity).
  assert (json_loads six_incorrect = Some six) as H3 by (vm_compute; reflexivity).
  assert (py_len six = Some 6) as H4 by reflexivity.
  do 4 (split; [assumption|]).
  exact (retraining_trigger_iff_threshold json_loads text_decode bytes_decode env_ok fs_six
           six_incorrect six 6 H1 H2 H3 H4).
Defined.

(** C5, as stated, fails on the same run: the file parses to 6 entries,
    and neither the metric of line 105 nor a parameter of line 110 is
    logged. *)
Lemma predictions_not_reached :
  fs_scores_array !! incorrect_file = Some six_incorrect ∧
  json_loads six_incorrect = Some six ∧
  py_len six = Some 6 ∧
  count (is_tracking_log_at 105) (trace_of (run_main env_ok fs_scores_array)) = 0 ∧
  count (is_tracking_log_at 110) (trace_of (run_main env_ok fs_scores_array)) = 0.
Proof. split_and!; vm_compute; reflexivity. Qed.

Lemma incorrect_predictions_logged_witness :
  parsed incorrect_file (trace_of (run_main env_ok fs_six)) = true ∧
  fs_six !! incorrect_file = Some six_incorrect ∧
  json_loads six_incorrect = Some six ∧
  py_len six = Some 6 ∧
  (105, log_metric "num_incorrect_predictions" (VInt (Z.of_nat 6)))
    ∈ trace_of (run_main env_ok fs_six) ∧
  ∀ i, i < 6 →
    ∃ pred, py_iter six !! i = Some pred ∧
            (110, log_param ("incorrect_prediction_" +:+ pretty i) (Raw pred))
              ∈ trace_of (run_main env_ok fs_six).
Proof.
  assert (parsed incorrect_file (trace_of (run_main env_ok fs_six)) = true) as H1
    by (vm_compute; reflexivity).
  assert (fs_six !! incorrect_file = Some six_incorrect) as H2
    by (vm_compute; reflexivity).
  assert (json_loads six_incorrect = Some six) as H3 by (vm_compute; reflexivity).
  assert (py_len six = Some 6) as H4 by reflexivity.
  do 4 (split; [assumption|]).
  exact (incorrect_predictions_logged json_loads text_decode bytes_decode env_ok fs_six
           six_incorrect six 6 H1 H2 H3 H4).
Defined.

(** C2, as stated, fails: [incorrect_predictions.json] does not exist, and
    [main] does not complete normally, because [scores.json] parsed to a
    list and line 89 raised. *)
Lemma missing_file_after_raise :
  fs_scores_array_only !! incorrect_file = None ∧
  result_of (run_main env_ok fs_scores_array_only) = Raised AttributeError.
Proof. split; vm_compute; reflexivity. Qed.

Lemma missing_files_are_skipped_witness :
  fs_empty !! scores_file = None ∧
  fs_empty !! incorrect_file = None ∧
  probed incorrect_file (trace_of (run_main env_ok fs_empty)) = true ∧
  appended (trace_of (run_main env_ok fs_empty)) = false ∧
  invoked (trace_of (run_main env_ok fs_empty)) = false ∧
  run_main env_ok fs_empty =
    Run (Returned ()) fs_empty (trace_of (run_main env_ok fs_empty)).
Proof.
  assert (fs_empty !! scores_file = None) as H1 by reflexivity.
  assert (fs_empty !! incorrect_file = None) as H2 by reflexivity.
  destruct (missing_files_are_skipped json_loads text_decode bytes_decode env_ok fs_empty)
    as [Hs Hi].
  destruct (Hs H1) as [_ Hp].
  destruct (Hi H2 Hp) as (_ & Ha & Hv & Hm).
  by split_and!.
Defined.



Lemma trigger_appends_one_line_witness :
  trigger_fired env_ok (trace_of (run_main env_ok fs_six)) ∧
  fs_of (run_main env_ok fs_six) !! trigger_file =
    Some (earlier_line +:+ trigger_line noon) ∧
  count is_write (trace_of (run_main env_ok fs_six)) = 1.
Proof.
  assert (trigger_fired env_ok (trace_of (run_main env_ok fs_six))) as Hf.
  { split; vm_compute; repeat constructor. }
  split; [exact Hf|].
  destruct (trigger_appends_one_line json_loads text_decode bytes_decode env_ok fs_six Hf)
    as (Hl & _ & Hc & _).
  split; [exact Hl|exact Hc].
Defined.

Lemma evaluation_results_logged_witness :
  evaluation_result env_ok = metrics ∧
  (74, log_metric "accuracy" (VInt 1)) ∈ trace_of (run_main env_ok fs_six) ∧
  (77, log_param "model" (Str (VStr "vgg16"))) ∈ trace_of (run_main env_ok fs_six).
Proof.
  split; [reflexivity|]. split.
  - apply (evaluation_results_logged json_loads text_decode bytes_decode env_ok fs_six
             _ "accuracy" (VInt 1) eq_refl).
    apply list_elem_of_further, list_elem_of_here.
  - apply (evaluation_results_logged json_loads text_decode bytes_decode env_ok fs_six
             _ "model" (VStr "vgg16") eq_refl).
    do 2 apply list_elem_of_further. apply list_elem_of_here.
Defined.

Lemma no_results_nothing_logged_witness :
  isinstance_dict (evaluation_result env_no_results) = false ∧
  log_results (evaluation_result env_no_results) fs_six =
    Run (Returned ()) fs_six [(69, logger INFO); (80, logger WARNING)].
Proof.
  split; [reflexivity|].
  apply (no_results_nothing_logged json_loads text_decode bytes_decode env_no_results fs_six).
  left. reflexivity.
Defined.

(** C9. The external process exits with status 1 and its captured
    [stderr] is not UTF-8: the line is appended and stays, but what leaves
    [main] is the [UnicodeDecodeError] of line 143, not the error of the
    process. *)
Theorem garbled_stderr_hides_process_error :
  returncode (dvc_repro_training env_garbled) = 1%Z ∧
  bytes_decode (stderr (dvc_repro_training env_garbled)) = None ∧
  invoked (trace_of (run_main env_garbled fs_six)) = true ∧
  result_of (run_main env_garbled fs_six) = Raised UnicodeDecodeError ∧
  fs_of (run_main env_garbled fs_six) !! trigger_file =
    Some (earlier_line +:+ trigger_line noon).
Proof. split_and!; vm_compute; reflexivity. Qed.

(** C6, as stated, fails twice on one run. The two configuration
    parameters are logged to the tracking backend (lines 60-61) before the
    evaluation is invoked (line 65), not after it. And with a [scores.json]
    that parses to a list the run ends at line 89: the branch over
    [incorrect_predictions.json] does not occur, although the file is
    there. *)
Lemma parameters_first_and_step_missing :
  trace_of (run_main env_ok fs_scores_array) !! 8 =
    Some (60, log_param "image_size" (Raw (VList [VInt 224; VInt 224; VInt 3]))) ∧
  trace_of (run_main env_ok fs_scores_array) !! 9 =
    Some (61, log_param "batch_size" (Raw (VInt 16))) ∧
  trace_of (run_main env_ok fs_scores_array) !! 11 = Some (65, evaluation) ∧
  fs_scores_array !! incorrect_file = Some six_incorrect ∧
  probed incorrect_file (trace_of (run_main env_ok fs_scores_array)) = false ∧
  count (λ e, phase e =? step_index IncorrectBranch)
    (trace_of (run_main env_ok fs_scores_array)) = 0 ∧
  result_of (run_main env_ok fs_scores_array) = Raised AttributeError.
Proof. split_and!; vm_compute; reflexivity. Qed.

Lemma steps_in_order_witness :
  trace_of (run_main env_ok fs_six) !! 48 =
    Some (120, write trigger_file (trigger_line noon)) ∧
  trace_of (run_main env_ok fs_six) !! 50 = Some (125, subprocess_run dvc_argv) ∧
  48 < 50.
Proof.
  assert (trace_of (run_main env_ok fs_six) !! 48 =
            Some (120, write trigger_file (trigger_line noon))) as H1
    by (vm_compute; reflexivity).
  assert (trace_of (run_main env_ok fs_six) !! 50 =
            Some (125, subprocess_run dvc_argv)) as H2
    by (vm_compute; reflexivity).
  do 2 (split; [assumption|]).
  destruct (steps_in_order json_loads text_decode bytes_decode env_ok fs_six)
    as (_ & _ & _ & _ & _ & _ & H & _).
  exact (H 48 50 _ _ H1 H2).
Defined.

(** Two entries are below the threshold: the run logs them, writes nothing,
    invokes nothing and returns. *)
Example two_entries_example :
  result_of (run_main env_ok fs_two) = Returned () ∧
  fs_of (run_main env_ok fs_two) = fs_two ∧
  count (is_tracking_log_at 110) (trace_of (run_main env_ok fs_two)) = 2 ∧
  appended (trace_of (run_main env_ok fs_two)) = false ∧
  invoked (trace_of (run_main env_ok fs_two)) = false.
Proof. split_and!; vm_compute; reflexivity. Qed.

(** The same run with a [stderr] that decodes: the error of the process
    leaves [main], and the line stays. *)
Example failed_process_example :
  result_of (run_main env_failed fs_six) =
    Raised (CalledProcessError 1 (stdout dvc_failed) (stderr dvc_failed)) ∧
  fs_of (run_main env_failed fs_six) !! trigger_file =
    Some (earlier_line +:+ trigger_line noon).
Proof. split; vm_compute; reflexivity. Qed.


(** ** Further properties on example runs *)

Lemma results_logged_in_order_witness :
  evaluation_result env_ok = metrics ∧
  List.filter is_result_log (trace_of (run_main env_ok fs_six)) =
    [(74, log_metric "loss" (VFloat (S754_finite false 1 (-1))));
     (74, log_metric "accuracy" (VInt 1));
     (77, log_param "model" (Str (VStr "vgg16")))].
Proof.
  split; [reflexivity|].
  exact (results_logged_in_order json_loads text_decode bytes_decode env_ok fs_six _ eq_refl).
Defined.

Lemma scores_logged_in_order_witness :
  fs_six !! scores_file = Some scores ∧
  json_loads scores = Some (VDict [("accuracy", VInt 1); ("loss", VInt 0)]) ∧
  probed incorrect_file (trace_of (run_main env_ok fs_six)) = true ∧
  List.filter (is_tracking_log_at 90) (trace_of (run_main env_ok fs_six)) =
    [(90, log_metric "accuracy" (VInt 1)); (90, log_metric "loss" (VInt 0))].
Proof.
  assert (fs_six !! scores_file = Some scores) as H1 by (vm_compute; reflexivity).
  assert (json_loads scores = Some (VDict [("accuracy", VInt 1); ("loss", VInt 0)]))
    as H2 by (vm_compute; reflexivity).
  assert (probed incorrect_file (trace_of (run_main env_ok fs_six)) = true) as H3
    by (vm_compute; reflexivity).
  do 3 (split; [assumption|]).
  exact (scores_logged_in_order json_loads text_decode bytes_decode env_ok fs_six
           _ _ H1 H2 H3).
Defined.

Lemma one_parameter_per_entry_witness :
  parsed incorrect_file (trace_of (run_main env_ok fs_six)) = true ∧
  fs_six !! incorrect_file = Some six_incorrect ∧
  json_loads six_incorrect = Some six ∧
  py_len six = Some 6 ∧
  count (is_tracking_log_at 110) (trace_of (run_main env_ok fs_six)) = 6.
Proof.
  assert (parsed incorrect_file (trace_of (run_main env_ok fs_six)) = true) as H1
    by (vm_compute; reflexivity).
  assert (fs_six !! incorrect_file = Some six_incorrect) as H2
    by (vm_compute; reflexivity).
  assert (json_loads six_incorrect = Some six) as H3 by (vm_compute; reflexivity).
  assert (py_len six = Some 6) as H4 by reflexivity.
  do 4 (split; [assumption|]).
  destruct (one_parameter_per_entry json_loads text_decode bytes_decode env_ok fs_six
              six_incorrect six 6 H1 H2 H3 H4) as (_ & _ & Hc & _).
  exact Hc.
Defined.

Lemma value_without_length_raises_witness :
  probed incorrect_file
    (trace_of (main Corners.json_loads text_decode bytes_decode env_ok
                 Corners.fs_seven)) = true ∧
  Corners.fs_seven !! incorrect_file = Some Corners.seven ∧
  Corners.json_loads Corners.seven = Some (VInt 7) ∧
  py_len (VInt 7) = None ∧
  result_of (main Corners.json_loads text_decode bytes_decode env_ok
               Corners.fs_seven) = Raised TypeError.
Proof.
  assert (probed incorrect_file
            (trace_of (main Corners.json_loads text_decode bytes_decode env_ok
                         Corners.fs_seven)) = true) as H1
    by (vm_compute; reflexivity).
  assert (Corners.fs_seven !! incorrect_file = Some Corners.seven) as H2
    by (vm_compute; reflexivity).
  assert (Corners.json_loads Corners.seven = Some (VInt 7)) as H3
    by (vm_compute; reflexivity).
  assert (py_len (VInt 7) = None) as H4 by reflexivity.
  do 4 (split; [assumption|]).
  destruct (value_without_length_raises Corners.json_loads text_decode bytes_decode env_ok
              Corners.fs_seven Corners.seven (VInt 7) H1 H2 H3 H4) as [Hm _].
  by rewrite Hm.
Defined.

Lemma scores_without_items_raises_witness :
  fs_scores_array !! scores_file = Some empty_array ∧
  json_loads empty_array = Some (VList []) ∧
  isinstance_dict (VList []) = false ∧
  result_of (run_main env_ok fs_scores_array) = Raised AttributeError ∧
  probed incorrect_file (trace_of (run_main env_ok fs_scores_array)) = false.
Proof.
  assert (fs_scores_array !! scores_file = Some empty_array) as H1
    by (vm_compute; reflexivity).
  assert (json_loads empty_array = Some (VList [])) as H2 by (vm_compute; reflexivity).
  assert (isinstance_dict (VList []) = false) as H3 by reflexivity.
  do 3 (split; [assumption|]).
  destruct (scores_without_items_raises json_loads text_decode bytes_decode env_ok
              fs_scores_array empty_array (VList []) H1 H2 H3) as (Hm & Hp & _).
  split; [by rewrite Hm|exact Hp].
Defined.

Lemma retraining_succeeds_witness :
  probed incorrect_file (trace_of (run_main env_ok fs_six)) = true ∧
  exceeds_threshold json_loads fs_six = true ∧
  returncode (dvc_repro_training env_ok) = 0%Z ∧
  bytes_decode (stdout (dvc_repro_training env_ok)) = Some (stdout dvc_ok) ∧
  bytes_decode (stderr (dvc_repro_training env_ok)) = Some (stderr dvc_ok) ∧
  result_of (run_main env_ok fs_six) = Returned () ∧
  count (is_logger_at 137) (trace_of (run_main env_ok fs_six)) = 1 ∧
  count (is_logger_at 139) (trace_of (run_main env_ok fs_six)) = 0.
Proof.
  assert (probed incorrect_file (trace_of (run_main env_ok fs_six)) = true) as H1
    by (vm_compute; reflexivity).
  assert (exceeds_threshold json_loads fs_six = true) as H2
    by (vm_compute; reflexivity).
  assert (returncode (dvc_repro_training env_ok) = 0%Z) as H3 by reflexivity.
  assert (bytes_decode (stdout (dvc_repro_training env_ok)) = Some (stdout dvc_ok))
    as H4 by (vm_compute; reflexivity).
  assert (bytes_decode (stderr (dvc_repro_training env_ok)) = Some (stderr dvc_ok))
    as H5 by (vm_compute; reflexivity).
  do 5 (split; [assumption|]).
  destruct (retraining_succeeds json_loads text_decode bytes_decode env_ok fs_six _ _
              H1 H2 H3 H4 H5) as (Hm & H137 & H139 & _).
  split; [by rewrite Hm|]. split; [exact H137|exact H139].
Defined.

Lemma undecodable_output_raises_witness :
  probed incorrect_file (trace_of (run_main Corners.env_ok_garbled fs_six)) = true ∧
  exceeds_threshold json_loads fs_six = true ∧
  returncode (dvc_repro_training Corners.env_ok_garbled) = 0%Z ∧
  bytes_decode (stdout (dvc_repro_training Corners.env_ok_garbled)) = None ∧
  result_of (run_main Corners.env_ok_garbled fs_six) = Raised UnicodeDecodeError ∧
  invoked (trace_of (run_main Corners.env_ok_garbled fs_six)) = true.
Proof.
  assert (probed incorrect_file
            (trace_of (run_main Corners.env_ok_garbled fs_six)) = true) as H1
    by (vm_compute; reflexivity).
  assert (exceeds_threshold json_loads fs_six = true) as H2
    by (vm_compute; reflexivity).
  assert (returncode (dvc_repro_training Corners.env_ok_garbled) = 0%Z) as H3
    by reflexivity.
  assert (bytes_decode (stdout (dvc_repro_training Corners.env_ok_garbled)) = None)
    as H4 by (vm_compute; reflexivity).
  do 4 (split; [assumption|]).
  destruct (undecodable_output_raises json_loads text_decode bytes_decode Corners.env_ok_garbled
              fs_six H1 H2 H3 (or_introl H4)) as (Hm & Hi & _).
  split; [by rewrite Hm|exact Hi].
Defined.

Lemma failed_process_reraised_witness :
  probed incorrect_file (trace_of (run_main env_failed fs_six)) = true ∧
  exceeds_threshold json_loads fs_six = true ∧
  returncode (dvc_repro_training env_failed) = 1%Z ∧
  bytes_decode (stderr (dvc_repro_training env_failed)) = Some (stderr dvc_failed) ∧
  count (is_logger_at 143) (trace_of (run_main env_failed fs_six)) = 1 ∧
  count (is_end_run FAILED) (trace_of (run_main env_failed fs_six)) = 1.
Proof.
  assert (probed incorrect_file (trace_of (run_main env_failed fs_six)) = true) as H1
    by (vm_compute; reflexivity).
  assert (exceeds_threshold json_loads fs_six = true) as H2
    by (vm_compute; reflexivity).
  assert (returncode (dvc_repro_training env_failed) ≠ 0%Z) as H3 by done.
  assert (bytes_decode (stderr (dvc_repro_training env_failed)) =
          Some (stderr dvc_failed)) as H4 by (vm_compute; reflexivity).
  split; [assumption|]. split; [assumption|]. split; [reflexivity|].
  split; [assumption|].
  destruct (failed_process_reraised json_loads text_decode bytes_decode env_failed fs_six _
              H1 H2 H3 H4) as (_ & H143 & _ & Hend).
  split; [exact H143|exact Hend].
Defined.

End Runs.
